(** * Eco-Commute-Planner: a shallow embedding of [main.py]

    The program is three small functions and a driver.  Two of the
    functions perform one HTTP GET each through the [requests] library,
    the third multiplies a distance by a per-mode emission factor, and
    [main] sequences them and prints a report.

    The embedding follows the Python text line by line:
    - Python floats are IEEE binary64 values ([spec_float] with
      precision 53 and maximal exponent 1024);
    - values decoded from JSON are an inductive type of Python objects;
    - [print], [requests.get] and raised exceptions are the effects of
      a small trace-and-error monad, with [try ... except
      requests.RequestException] as its handler. *)

From Stdlib Require Import ZArith List String Ascii Bool Lia.
From Stdlib Require Import SpecFloat DecimalString.
Import ListNotations.
Set Warnings "-register-all".
Open Scope string_scope.
Open Scope Z_scope.

(** ** Python floats (IEEE 754 binary64) *)

Module Float64.

Definition prec : Z := 53.
Definition emax : Z := 1024.

Definition float : Type := spec_float.

(** [float(n)] for a Python int that fits: round to nearest, ties to
    even; an infinite result stands for "too large". *)
Definition of_Z (n : Z) : float := binary_normalize prec emax n 0 false.

Definition mul : float -> float -> float := SFmul prec emax.
Definition div : float -> float -> float := SFdiv prec emax.
Definition eqb : float -> float -> bool := SFeqb.
Definition leb : float -> float -> bool := SFleb.

(** The float denoted by a decimal literal [num / den] of the source
    text, where [num] and [den] are both below [2^53] (hence exact
    floats): IEEE division rounds the quotient correctly, which is
    the value the Python parser gives the literal. *)
Definition literal (num den : Z) : float := div (of_Z num) (of_Z den).

Definition zero : float := S754_zero false.

Definition is_zero (x : float) : bool :=
  match x with S754_zero _ => true | _ => false end.

Definition is_finite (x : float) : bool :=
  match x with S754_zero _ | S754_finite _ _ _ => true | _ => false end.

Definition is_infinite (x : float) : bool :=
  match x with S754_infinity _ => true | _ => false end.

(** *** Decimal output *)

Definition dec (n : Z) : string := NilZero.string_of_uint (N.to_uint (Z.to_N n)).

Definition sign_text (s : bool) : string := if s then "-" else "".

(** [num / den] rounded to the nearest integer, ties to even
    ([0 <= num], [0 < den]). *)
Definition round_half_even (num den : Z) : Z :=
  let q := num / den in
  match (2 * (num mod den)) ?= den with
  | Lt => q
  | Gt => q + 1
  | Eq => if Z.even q then q else q + 1
  end.

(** [m * 2^e * 10^k] rounded to the nearest integer, ties to even. *)
Definition scaled (m : positive) (e k : Z) : Z :=
  let n2 := if 0 <=? e then 2 ^ e else 1 in
  let d2 := if 0 <=? e then 1 else 2 ^ (- e) in
  let n10 := if 0 <=? k then 10 ^ k else 1 in
  let d10 := if 0 <=? k then 1 else 10 ^ (- k) in
  round_half_even (Zpos m * n2 * n10) (d2 * d10).

Definition two_digits (n : Z) : string :=
  if n <? 10 then "0" ++ dec n else dec n.

(** [format(x, '.2f')]: the exact binary value, correctly rounded to
    two decimals. *)
Definition format_2f (x : float) : string :=
  match x with
  | S754_nan => "nan"
  | S754_infinity s => sign_text s ++ "inf"
  | S754_zero s => sign_text s ++ "0.00"
  | S754_finite s m e =>
      let q := scaled m e 2 in
      sign_text s ++ dec (q / 100) ++ "." ++ two_digits (q mod 100)
  end.

(** *** [repr(x)]: the shortest decimal digits that read back as [x]

    A finite float [m * 2^e] (with [m] of 53 bits, or [e = -1074])
    is the rounding of exactly the reals between the midpoints to its
    two neighbours; the midpoints themselves belong to it when [m] is
    even.  [repr] takes the least number of significant digits whose
    correctly rounded decimal lies in that interval, and switches to
    exponent notation when the decimal point falls left of [-4] or
    right of [16]. *)

Definition pow_num (b k : Z) : Z := if 0 <=? k then b ^ k else 1.
Definition pow_den (b k : Z) : Z := if 0 <=? k then 1 else b ^ (- k).

Definition below_pow10 (m : positive) (e k : Z) : bool :=
  Zpos m * pow_num 2 e * pow_den 10 k <? pow_den 2 e * pow_num 10 k.

Fixpoint search_decpt (fuel : nat) (m : positive) (e k : Z) : Z :=
  match fuel with
  | O => k
  | S f => if below_pow10 m e k then k else search_decpt f m e (k + 1)
  end.

(** The least [k] with [m * 2^e < 10^k]. *)
Definition decpt (m : positive) (e : Z) : Z :=
  let b := Zpos (digits2_pos m) + e in
  search_decpt 6 m e ((b - 1) * 30103 / 100000 - 1).

(** Does the decimal [d * 10^p] round to the float [m * 2^e]? *)
Definition reads_back (m : positive) (e d p : Z) : bool :=
  let below := if (Zpos m =? 2 ^ 52) && (-1074 <? e) then 1 else 2 in
  let lo := 4 * Zpos m - below in
  let hi := 4 * Zpos m + 2 in
  let c := d * pow_num 10 p * pow_den 2 (e - 2) in
  let u := pow_num 2 (e - 2) * pow_den 10 p in
  if Z.even (Zpos m)
  then (lo * u <=? c) && (c <=? hi * u)
  else (lo * u <? c) && (c <? hi * u).

Fixpoint shortest (fuel : nat) (m : positive) (e k n : Z) : Z * Z :=
  let d := scaled m e (n - k) in
  match fuel with
  | O => (d, k - n)
  | S f => if reads_back m e d (k - n) then (d, k - n)
           else shortest f m e k (n + 1)
  end.

Fixpoint strip_zeros (fuel : nat) (d p : Z) : Z * Z :=
  match fuel with
  | O => (d, p)
  | S f => if (0 <? d) && (d mod 10 =? 0) then strip_zeros f (d / 10) (p + 1)
           else (d, p)
  end.

Fixpoint zeros (n : nat) : string :=
  match n with O => "" | S k => "0" ++ zeros k end.

Definition repr_finite (m : positive) (e : Z) : string :=
  let k := decpt m e in
  let '(d0, p0) := shortest 16 m e k 1 in
  let '(d, p) := strip_zeros 20 d0 p0 in
  let ds := dec d in
  let len := String.length ds in
  let dp := p + Z.of_nat len in
  if (dp <=? -4) || (16 <? dp) then
    let mant := match len with
                | 1%nat => ds
                | _ => substring 0 1 ds ++ "." ++ substring 1 (len - 1) ds
                end in
    mant ++ "e" ++ (if dp - 1 <? 0 then "-" else "+") ++ two_digits (Z.abs (dp - 1))
  else if dp <=? 0 then "0." ++ zeros (Z.to_nat (- dp)) ++ ds
  else if Z.of_nat len <=? dp then ds ++ zeros (Z.to_nat dp - len) ++ ".0"
  else substring 0 (Z.to_nat dp) ds ++ "." ++ substring (Z.to_nat dp) (len - Z.to_nat dp) ds.

Definition repr (x : float) : string :=
  match x with
  | S754_nan => "nan"
  | S754_infinity s => sign_text s ++ "inf"
  | S754_zero s => sign_text s ++ "0.0"
  | S754_finite s m e => sign_text s ++ repr_finite m e
  end.

End Float64.

(** ** Python objects and the operators the program applies to them *)

(** The objects [response.json()] can produce.  A dict is listed by its
    items; JSON object keys are always strings, and a lookup takes the
    first item with the key. *)
Inductive pyval : Type :=
| PyNone
| PyBool (b : bool)
| PyInt (n : Z)
| PyFloat (x : Float64.float)
| PyStr (s : string)
| PyList (l : list pyval)
| PyDict (d : list (string * pyval)).

(** Raised exceptions.  [RequestException] stands for
    [requests.RequestException] and all its subclasses ([ConnectionError],
    [Timeout], [HTTPError], ...), with the text [str(e)]; [Exception] is
    the plain built-in class, which is not one of them. *)
Inductive exn : Type :=
| RequestException (msg : string)
| Exception (msg : string)
| TypeError
| ValueError
| KeyError (key : pyval)
| IndexError
| AttributeError
| OverflowError
| ZeroDivisionError.

Definition result (A : Type) : Type := (exn + A)%type.

Module Py.

Fixpoint lookup {A : Type} (k : string) (d : list (string * A)) : option A :=
  match d with
  | [] => None
  | (k', v) :: rest => if String.eqb k k' then Some v else lookup k rest
  end.

(** [bool(v)] *)
Definition truthy (v : pyval) : bool :=
  match v with
  | PyNone => false
  | PyBool b => b
  | PyInt n => negb (n =? 0)
  | PyFloat x => negb (Float64.is_zero x)
  | PyStr s => negb (String.eqb s "")
  | PyList l => match l with [] => false | _ :: _ => true end
  | PyDict d => match d with [] => false | _ :: _ => true end
  end.

Definition is_none (v : pyval) : bool :=
  match v with PyNone => true | _ => false end.

Fixpoint infix (needle s : string) : bool :=
  prefix needle s ||
  match s with
  | EmptyString => false
  | String _ rest => infix needle rest
  end.

(** [k in v] for a string [k]: key of a dict, element of a list,
    substring of a string; other objects are not containers. *)
Definition contains (k : string) (v : pyval) : result bool :=
  match v with
  | PyDict d => inr (match lookup k d with Some _ => true | None => false end)
  | PyList l =>
      inr (existsb (fun x => match x with PyStr s => String.eqb s k | _ => false end) l)
  | PyStr s => inr (infix k s)
  | _ => inl TypeError
  end.

(** [v[k]] for a string [k] *)
Definition getitem (v : pyval) (k : string) : result pyval :=
  match v with
  | PyDict d =>
      match lookup k d with
      | Some x => inr x
      | None => inl (KeyError (PyStr k))
      end
  | _ => inl TypeError
  end.

(** The first character of a UTF-8 encoded text: its lead byte and
    the continuation bytes ([0x80..0xBF]) that follow it. *)
Fixpoint continuation (s : string) : string :=
  match s with
  | String c rest =>
      if (128 <=? Z.of_nat (nat_of_ascii c)) && (Z.of_nat (nat_of_ascii c) <? 192)
      then String c (continuation rest) else EmptyString
  | EmptyString => EmptyString
  end.

(** [v[0]] *)
Definition getitem0 (v : pyval) : result pyval :=
  match v with
  | PyList (x :: _) => inr x
  | PyList [] => inl IndexError
  | PyStr (String c rest) => inr (PyStr (String c (continuation rest)))
  | PyStr EmptyString => inl IndexError
  | PyDict _ => inl (KeyError (PyInt 0))
  | _ => inl TypeError
  end.

(** [v.get(k)] *)
Definition get (v : pyval) (k : string) : result pyval :=
  match v with
  | PyDict d => inr (match lookup k d with Some x => x | None => PyNone end)
  | _ => inl AttributeError
  end.

(** Conversion of an int operand to float: "int too large to convert
    to float" when the rounded value overflows. *)
Definition int_to_float (n : Z) : result Float64.float :=
  let x := Float64.of_Z n in
  if Float64.is_infinite x then inl OverflowError else inr x.

(** The left operand of [v / y] or [v * y] with [y] a float. *)
Definition as_float (v : pyval) : result Float64.float :=
  match v with
  | PyFloat x => inr x
  | PyInt n => int_to_float n
  | PyBool b => inr (Float64.of_Z (if b then 1 else 0))
  | _ => inl TypeError
  end.

(** [v / y] *)
Definition truediv (v : pyval) (y : Float64.float) : result Float64.float :=
  match as_float v with
  | inl e => inl e
  | inr x => if Float64.is_zero y then inl ZeroDivisionError
             else inr (Float64.div x y)
  end.

(** [v * y] *)
Definition mul (v : pyval) (y : Float64.float) : result Float64.float :=
  match as_float v with
  | inl e => inl e
  | inr x => inr (Float64.mul x y)
  end.

(** [format(v, '.2f')] *)
Definition format_2f (v : pyval) : result string :=
  match v with
  | PyFloat x => inr (Float64.format_2f x)
  | PyInt n =>
      match int_to_float n with
      | inl e => inl e
      | inr x => inr (Float64.format_2f x)
      end
  | PyBool b => inr (Float64.format_2f (Float64.of_Z (if b then 1 else 0)))
  | PyStr _ => inl ValueError
  | _ => inl TypeError
  end.

(** [str((a, b))] for a pair of floats *)
Definition str_pair (p : Float64.float * Float64.float) : string :=
  "(" ++ Float64.repr (fst p) ++ ", " ++ Float64.repr (snd p) ++ ")".

End Py.

(** ** Effects: printed lines, HTTP requests, exceptions *)

Inductive event : Type :=
| Print (line : string)
| HttpGet (url : string) (params : list (string * string)).

(** What [requests] hands back for a completed exchange: the status
    code, the text of the [HTTPError] that [raise_for_status] raises for
    it, and the outcome of decoding the body with [json()]. *)
Record response : Type := {
  status_code : Z;
  http_error : string;
  json : result pyval
}.

(** The outcome of one [requests.get]. *)
Inductive reply : Type :=
| Raises (e : exn)
| Responds (r : response).

(** The world outside the process: what each GET is answered with. *)
Definition network : Type := string -> list (string * string) -> reply.

Definition M (A : Type) : Type := network -> list event * result A.

Definition ret {A : Type} (a : A) : M A := fun _ => ([], inr a).

Definition bind {A B : Type} (m : M A) (f : A -> M B) : M B :=
  fun net =>
    match m net with
    | (t, inl e) => (t, inl e)
    | (t, inr a) => let '(t', r) := f a net in ((t ++ t')%list, r)
    end.

Definition raise {A : Type} (e : exn) : M A := fun _ => ([], inl e).

Definition lift {A : Type} (r : result A) : M A := fun _ => ([], r).

Definition print (line : string) : M unit := fun _ => ([Print line], inr tt).

Declare Scope py_scope.
Delimit Scope py_scope with py.
Notation "x <- m ;; k" := (bind m (fun x => k))
  (at level 100, m at next level, right associativity) : py_scope.
Notation "' p <- m ;; k" := (bind m (fun x => match x with p => k end))
  (at level 100, p pattern, m at next level, right associativity) : py_scope.
Notation "m ;; k" := (bind m (fun _ => k))
  (at level 100, right associativity) : py_scope.
Open Scope py_scope.

(** [try: body  except requests.RequestException as e: handler] *)
Definition try_except_RequestException {A : Type}
    (body : M A) (handler : string -> M A) : M A :=
  fun net =>
    match body net with
    | (t, inl (RequestException msg)) =>
        let '(t', r) := handler msg net in ((t ++ t')%list, r)
    | other => other
    end.

Module requests.

Definition get (url : string) (params : list (string * string)) : M response :=
  fun net =>
    ([HttpGet url params],
     match net url params with
     | Raises e => inl e
     | Responds r => inr r
     end).

(** [HTTPError] for client (4xx) and server (5xx) statuses, nothing
    otherwise. *)
Definition raise_for_status (r : response) : M unit :=
  if (400 <=? status_code r) && (status_code r <? 600)
  then raise (RequestException (http_error r))
  else ret tt.

Definition json (r : response) : M pyval := lift (json r).

End requests.

(** ** The program *)

Definition OSM_ROUTING_API_URL : string :=
  "http://router.project-osrm.org/route/v1/driving".

Definition REALTIME_DATA_API_URL : string :=
  "http://example.com/realtimeData".

(** kg CO2 per km *)
Definition EMISSION_FACTORS : list (string * Float64.float) :=
  [ ("car", Float64.literal 271 1000);
    ("bus", Float64.literal 105 1000);
    ("bike", Float64.zero);
    ("walk", Float64.zero) ].

(** A coordinate pair [(latitude, longitude)]. *)
Definition coords : Type := (Float64.float * Float64.float)%type.

(** The URL built by the f-string of [fetch_route]: longitude first. *)
Definition route_url (start_coords end_coords : coords) : string :=
  OSM_ROUTING_API_URL ++ "/"
    ++ Float64.repr (snd start_coords) ++ "," ++ Float64.repr (fst start_coords)
    ++ ";"
    ++ Float64.repr (snd end_coords) ++ "," ++ Float64.repr (fst end_coords).

Definition fetch_route (start_coords end_coords : coords) (mode : string)
  : M pyval :=
  try_except_RequestException
    (response <- requests.get (route_url start_coords end_coords)
                   [("geometries", "geojson"); ("overview", "simplified")] ;;
     requests.raise_for_status response ;;
     data <- requests.json response ;;
     has_routes <- lift (Py.contains "routes" data) ;;
     found <- (if has_routes : bool
               then routes <- lift (Py.getitem data "routes") ;;
                    ret (Py.truthy routes)
               else ret false) ;;
     if found : bool
     then routes <- lift (Py.getitem data "routes") ;;
          lift (Py.getitem0 routes)
     else raise (Exception "No route found"))
    (fun e => print ("Error fetching route: " ++ e) ;; ret PyNone).

Definition fetch_realtime_data (mode : string) : M (pyval * pyval) :=
  try_except_RequestException
    (response <- requests.get REALTIME_DATA_API_URL [("mode", mode)] ;;
     requests.raise_for_status response ;;
     data <- requests.json response ;;
     cost <- lift (Py.get data "cost") ;;
     emissions <- lift (Py.get data "emissions") ;;
     ret (cost, emissions))
    (fun e => print ("Error fetching real-time data: " ++ e) ;;
              ret (PyNone, PyNone)).

Definition calculate_emissions (distance_km : pyval) (mode : string) : M pyval :=
  match Py.lookup mode EMISSION_FACTORS with
  | None =>
      print ("Emission factor for mode '" ++ mode ++ "' not found") ;;
      ret PyNone
  | Some emission_factor =>
      x <- lift (Py.mul distance_km emission_factor) ;;
      ret (PyFloat x)
  end.

Definition start_location : coords :=
  (Float64.literal 40712776 1000000, SFopp (Float64.literal 74005974 1000000)).

Definition end_location : coords :=
  (Float64.literal 34052235 1000000, SFopp (Float64.literal 118243683 1000000)).

(** Lines 77-89 of [main]: everything after [distance_km] is known. *)
Definition main_report (start_location end_location : coords) (mode : string)
    (distance_km : Float64.float) : M unit :=
  '(real_time_cost, _) <- fetch_realtime_data mode ;;
  estimated_emissions <- calculate_emissions (PyFloat distance_km) mode ;;
  print ("Route from " ++ Py.str_pair start_location ++ " to "
           ++ Py.str_pair end_location ++ " via " ++ mode ++ ":") ;;
  print ("Distance: " ++ Float64.format_2f distance_km ++ " km") ;;
  (if Py.truthy real_time_cost
   then text <- lift (Py.format_2f real_time_cost) ;;
        print ("Estimated cost: $" ++ text)
   else ret tt) ;;
  (if negb (Py.is_none estimated_emissions)
   then text <- lift (Py.format_2f estimated_emissions) ;;
        print ("Estimated emissions: " ++ text ++ " kg CO2")
   else ret tt).

(** The body of [main] with its three local constants as arguments. *)
Definition main_body (start_location end_location : coords) (mode : string)
  : M unit :=
  route <- fetch_route start_location end_location mode ;;
  if negb (Py.truthy route)
  then print "Couldn't retrieve the route."
  else
    distance <- lift (Py.getitem route "distance") ;;
    distance_km <- lift (Py.truediv distance (Float64.literal 1000 1)) ;;
    main_report start_location end_location mode distance_km.

Definition main : M unit := main_body start_location end_location "car".

(** ** Networks used in the scenarios *)

Definition ok_json (body : pyval) : response :=
  {| status_code := 200; http_error := ""; json := inr body |}.

(** Is this GET the routing call, or the real-time call? *)
Definition is_routing (url : string) : bool := prefix OSM_ROUTING_API_URL url.

(** A network answering the routing call with [routing] and the
    real-time call with [realtime]. *)
Definition serve (routing realtime : reply) : network :=
  fun url _ => if is_routing url then routing else realtime.

(** The lines printed in a trace, in order. *)
Definition printed (t : list event) : list string :=
  flat_map (fun ev => match ev with Print l => [l] | HttpGet _ _ => [] end) t.

(** The GET requests issued in a trace, in order. *)
Definition requested (t : list event) : list (string * list (string * string)) :=
  flat_map (fun ev => match ev with Print _ => [] | HttpGet u p => [(u, p)] end) t.

(** [{"routes": [...]}] and [{"distance": d}] *)
Definition routes_body (routes : list pyval) : pyval :=
  PyDict [("routes", PyList routes)].

Definition route_of_distance (d : pyval) : pyval :=
  PyDict [("distance", d)].

Definition status_reply (code : Z) (reason : string) (body : result pyval) : reply :=
  Responds {| status_code := code; http_error := reason; json := body |}.

(** The real-time endpoint is a placeholder: connecting to it fails. *)
Definition realtime_down : reply :=
  Raises (RequestException "connection refused").

(** Routing answers [200] with [{"routes": []}]. *)
Definition empty_routes_net : network :=
  serve (Responds (ok_json (routes_body []))) realtime_down.

(** Routing answers [500]. *)
Definition server_error_net : network :=
  serve (status_reply 500 "500 Server Error: Internal Server Error" (inl ValueError))
        realtime_down.

(** Routing answers [300 Multiple Choices] with a route in the body. *)
Definition multiple_choices_net : network :=
  serve (status_reply 300 "" (inr (routes_body [route_of_distance (PyInt 1000)])))
        realtime_down.

(** Routing answers [200] with [{"routes": [{}]}]. *)
Definition empty_route_net : network :=
  serve (Responds (ok_json (routes_body [PyDict []]))) realtime_down.

(** Routing answers [200] with a route lacking [distance]. *)
Definition no_distance_net : network :=
  serve (Responds (ok_json (routes_body [PyDict [("duration", PyInt 60)]])))
        realtime_down.

(** Routing answers [200] with a first route of 500000 metres. *)
Definition coast_to_coast_net : network :=
  serve (Responds (ok_json (routes_body [route_of_distance (PyInt 500000)])))
        realtime_down.

(** The real-time service answers [200] with [{"emissions": 1000}]. *)
Definition costless_net : network :=
  serve (Responds (ok_json (routes_body [route_of_distance (PyInt 500000)])))
        (Responds (ok_json (PyDict [("emissions", PyInt 1000)]))).

(** No service can be reached. *)
Definition offline_net : network := serve realtime_down realtime_down.

(** ** Vocabulary of the properties *)

(** The query parameters of the routing call. *)
Definition routing_params : list (string * string) :=
  [("geometries", "geojson"); ("overview", "simplified")].

(** The exchange completed with a 2xx status. *)
Definition success_status (r : response) : Prop :=
  200 <= status_code r < 300.

(** [raise_for_status] raises for this response. *)
Definition error_status (r : response) : Prop :=
  400 <= status_code r < 600.

(** A transport failure as the code sees one: [requests.get] raised a
    [RequestException], or the status is one [raise_for_status] rejects. *)
Inductive transport_failure : reply -> string -> Prop :=
| connection_failure (msg : string) :
    transport_failure (Raises (RequestException msg)) msg
| status_failure (r : response) :
    error_status r -> transport_failure (Responds r) (http_error r).

(** A transport failure as the specification words it: a connection
    error, or any status outside 2xx. *)
Inductive non_2xx_failure : reply -> Prop :=
| non_2xx_connection (msg : string) :
    non_2xx_failure (Raises (RequestException msg))
| non_2xx_status (r : response) :
    ~ success_status r -> non_2xx_failure (Responds r).

(** A JSON body [{"routes": [first, ...rest], ...}]. *)
Definition has_first_route (body first : pyval) : Prop :=
  exists d rest,
    body = PyDict d /\ Py.lookup "routes" d = Some (PyList (first :: rest)).

(** Python's [x >= 0] on floats. *)
Definition nonnegative (x : Float64.float) : Prop :=
  Float64.leb Float64.zero x = true.

(** Python's [x == 0.0] on floats. *)
Definition equals_zero (x : Float64.float) : Prop :=
  Float64.eqb x Float64.zero = true.

Definition known_mode (mode : string) : Prop :=
  In mode ["car"; "bus"; "bike"; "walk"].

(** The lines of the report. *)
Definition route_line (start_coords end_coords : coords) (mode : string) : string :=
  "Route from " ++ Py.str_pair start_coords ++ " to "
    ++ Py.str_pair end_coords ++ " via " ++ mode ++ ":".

Definition distance_line (distance_km : Float64.float) : string :=
  "Distance: " ++ Float64.format_2f distance_km ++ " km".

Definition not_found_line (mode : string) : string :=
  "Emission factor for mode '" ++ mode ++ "' not found".

(** The cost part of the report: a line when the cost is truthy and a
    number, an error when it is truthy and not a number, else nothing. *)
Definition cost_lines (cost : pyval) : list event * result unit :=
  if Py.truthy cost
  then match Py.format_2f cost with
       | inl e => ([], inl e)
       | inr text => ([Print ("Estimated cost: $" ++ text)], inr tt)
       end
  else ([], inr tt).

(** Run a fetch up to the answer [H] of the network. *)
Ltac run_request H :=
  unfold fetch_route, fetch_realtime_data, try_except_RequestException,
    bind, requests.get, requests.json, lift, ret, raise, print;
  try unfold routing_params in H; rewrite H.

(** ** Further vocabulary: bodies and fields off the expected shape *)

Definition is_object (v : pyval) : bool :=
  match v with PyDict _ => true | _ => false end.

(** The condition [ 'routes' in data and data['routes'] ] fails on
    the object [d]: no such key, or a falsy value under it. *)
Definition routes_unusable (d : list (string * pyval)) : Prop :=
  match Py.lookup "routes" d with
  | None => True
  | Some routes => Py.truthy routes = false
  end.

Definition is_request_exception (e : exn) : bool :=
  match e with RequestException _ => true | _ => false end.

(** The real-time request of a run for [mode]. *)
Definition realtime_request (mode : string) : string * list (string * string) :=
  (REALTIME_DATA_API_URL, [("mode", mode)]).

Definition routing_request (start_coords end_coords : coords)
  : string * list (string * string) :=
  (route_url start_coords end_coords, routing_params).

(** Routing answers [200] with [{"routes": [null]}]. *)
Definition null_route_net : network :=
  serve (Responds (ok_json (routes_body [PyNone]))) realtime_down.

(** Routing answers [200] with [{"message": "Ok"}]. *)
Definition no_routes_key_net : network :=
  serve (Responds (ok_json (PyDict [("message", PyStr "Ok")]))) realtime_down.

(** Routing answers [200] with the JSON array [[]]. *)
Definition array_body_net : network :=
  serve (Responds (ok_json (PyList []))) realtime_down.

(** Routing answers [200] with a body [json()] cannot decode; the
    decoder raises [raised]. *)
Definition undecodable_net (raised : exn) : network :=
  serve (status_reply 200 "" (inl raised)) realtime_down.

(** [requests.get] itself raises [raised] on every call. *)
Definition raising_net (raised : exn) : network :=
  serve (Raises raised) (Raises raised).

(** Routing answers [200] with a first route whose distance is the
    text ["far"]. *)
Definition text_distance_net : network :=
  serve (Responds (ok_json (routes_body [route_of_distance (PyStr "far")])))
        realtime_down.

(** Routing answers [200] with a first route that is a number. *)
Definition number_route_net : network :=
  serve (Responds (ok_json (routes_body [PyInt 7]))) realtime_down.

(** The real-time service answers [200] with [realtime_body]. *)
Definition priced_net (realtime_body : pyval) : network :=
  serve (Responds (ok_json (routes_body [route_of_distance (PyInt 500000)])))
        (Responds (ok_json realtime_body)).

(** Routing answers [200] with a first route of 1234.5 metres. *)
Definition float_distance_net : network :=
  serve (Responds (ok_json (routes_body
                              [route_of_distance (PyFloat (Float64.literal 12345 10))])))
        realtime_down.

(** * Properties *)

(** ** The float literals of the source *)

Example literal_0_271 :
  Float64.literal 271 1000 = S754_finite false 4881901996069618 (-54)
  /\ Float64.repr (Float64.literal 271 1000) = "0.271".
Proof. split; vm_compute; reflexivity. Qed.

Example literal_1000 :
  Float64.literal 1000 1 = Float64.of_Z 1000
  /\ Float64.repr (Float64.literal 1000 1) = "1000.0".
Proof. split; vm_compute; reflexivity. Qed.

Example start_location_text :
  Py.str_pair start_location = "(40.712776, -74.005974)"
  /\ Py.str_pair end_location = "(34.052235, -118.243683)".
Proof. split; vm_compute; reflexivity. Qed.

(** [repr] on values whose Python text is well known: shortest digits,
    exponent notation outside [1e-4 .. 1e16], the subnormal and the
    largest float, a tie between two 17-digit candidates. *)
Example repr_samples :
  map Float64.repr
    [Float64.literal 1 10; Float64.of_Z (10 ^ 16); Float64.of_Z (10 ^ 15);
     Float64.literal 1 100000; Float64.literal 1 10000;
     S754_finite false 1 (-1074);
     S754_finite false 9007199254740991 971;
     S754_finite false 4503599627370497 (-2);
     SFopp (Float64.literal 15 10)]
  = ["0.1"; "1e+16"; "1000000000000000.0"; "1e-05"; "0.0001"; "5e-324";
     "1.7976931348623157e+308"; "1125899906842624.2"; "-1.5"].
Proof. vm_compute. reflexivity. Qed.

Example format_2f_ties_to_even :
  Float64.format_2f (Float64.literal 125 1000) = "0.12"
  /\ Float64.format_2f (Float64.literal 375 1000) = "0.38".
Proof. split; vm_compute; reflexivity. Qed.

(** ** Running the monad *)

Lemma prefix_append (p s : string) : prefix p (p ++ s) = true.
Proof.
  induction p as [| c p IH]; simpl.
  - destruct s; reflexivity.
  - destruct (ascii_dec c c) as [_ | ne]; [exact IH | contradiction].
Qed.

Lemma route_url_is_routing (start_coords end_coords : coords) :
  is_routing (route_url start_coords end_coords) = true.
Proof. unfold is_routing, route_url. apply prefix_append. Qed.

Lemma realtime_url_not_routing : is_routing REALTIME_DATA_API_URL = false.
Proof. reflexivity. Qed.

Lemma raise_for_status_success (r : response) (net : network) :
  ~ error_status r -> requests.raise_for_status r net = ([], inr tt).
Proof.
  unfold error_status, requests.raise_for_status. intros ok.
  destruct (Z.leb_spec 400 (status_code r)); simpl; try reflexivity.
  destruct (Z.ltb_spec (status_code r) 600); simpl; try reflexivity.
  exfalso; apply ok; lia.
Qed.

Lemma raise_for_status_error (r : response) (net : network) :
  error_status r ->
  requests.raise_for_status r net = ([], inl (RequestException (http_error r))).
Proof.
  unfold error_status, requests.raise_for_status. intros [lo hi].
  apply Z.leb_le in lo. apply Z.ltb_lt in hi. rewrite lo, hi. reflexivity.
Qed.

Lemma success_not_error (r : response) : success_status r -> ~ error_status r.
Proof. unfold success_status, error_status. lia. Qed.

(** ** [fetch_route] *)

Lemma fetch_route_failure (start_coords end_coords : coords) (mode : string)
    (net : network) (r : reply) (msg : string) :
  net (route_url start_coords end_coords) routing_params = r ->
  transport_failure r msg ->
  fetch_route start_coords end_coords mode net
  = ([HttpGet (route_url start_coords end_coords) routing_params;
      Print ("Error fetching route: " ++ msg)],
     inr PyNone).
Proof.
  intros H fail. destruct fail as [msg | resp bad]; run_request H.
  - reflexivity.
  - rewrite (raise_for_status_error resp net bad). reflexivity.
Qed.

Lemma fetch_route_first (start_coords end_coords : coords) (mode : string)
    (net : network) (resp : response) (body first : pyval) :
  net (route_url start_coords end_coords) routing_params = Responds resp ->
  ~ error_status resp ->
  json resp = inr body ->
  has_first_route body first ->
  fetch_route start_coords end_coords mode net
  = ([HttpGet (route_url start_coords end_coords) routing_params], inr first).
Proof.
  intros H ok Hjson (d & rest & -> & Hroutes). run_request H.
  rewrite (raise_for_status_success resp net ok), Hjson.
  cbn [Py.contains Py.getitem]. rewrite Hroutes. reflexivity.
Qed.

Lemma fetch_route_no_routes (start_coords end_coords : coords) (mode : string)
    (net : network) (resp : response) (d : list (string * pyval)) :
  net (route_url start_coords end_coords) routing_params = Responds resp ->
  ~ error_status resp ->
  json resp = inr (PyDict d) ->
  Py.lookup "routes" d = Some (PyList []) ->
  fetch_route start_coords end_coords mode net
  = ([HttpGet (route_url start_coords end_coords) routing_params],
     inl (Exception "No route found")).
Proof.
  intros H ok Hjson Hroutes. run_request H.
  rewrite (raise_for_status_success resp net ok), Hjson.
  cbn [Py.contains Py.getitem]. rewrite Hroutes. reflexivity.
Qed.

Lemma serve_routing (routing realtime : reply) (start_coords end_coords : coords)
    (params : list (string * string)) :
  serve routing realtime (route_url start_coords end_coords) params = routing.
Proof. unfold serve. rewrite route_url_is_routing. reflexivity. Qed.

Lemma serve_realtime (routing realtime : reply) (params : list (string * string)) :
  serve routing realtime REALTIME_DATA_API_URL params = realtime.
Proof. reflexivity. Qed.

(** C1.  A 2xx response whose body is [{"routes": []}] is NOT turned
    into the absent result: [fetch_route] raises the plain
    [Exception("No route found")], which the handler for
    [requests.RequestException] does not catch; nothing is printed, and
    the exception leaves [main] uncaught. *)
Theorem fetch_route_empty_routes_escapes :
  fetch_route start_location end_location "car" empty_routes_net
  = ([HttpGet (route_url start_location end_location) routing_params],
     inl (Exception "No route found"))
  /\ main empty_routes_net
     = ([HttpGet (route_url start_location end_location) routing_params],
        inl (Exception "No route found")).
Proof.
  assert (H : fetch_route start_location end_location "car" empty_routes_net
              = ([HttpGet (route_url start_location end_location) routing_params],
                 inl (Exception "No route found"))).
  { apply fetch_route_no_routes
      with (resp := ok_json (routes_body [])) (d := [("routes", PyList [])]).
    - apply serve_routing.
    - unfold error_status; simpl; lia.
    - reflexivity.
    - reflexivity. }
  split; [exact H |].
  unfold main, main_body, bind. rewrite H. reflexivity.
Qed.

(** C2 (as amended).  When the routing call fails in transport, that is
    [requests.get] raises a [RequestException] or the status is a 4xx or
    5xx one, [fetch_route] prints the error and returns [None]; the
    driver then prints the single line "Couldn't retrieve the route.",
    issues no further request and returns normally. *)
Theorem route_failure_short_circuits (start_coords end_coords : coords)
    (mode : string) (net : network) (r : reply) (msg : string) :
  net (route_url start_coords end_coords) routing_params = r ->
  transport_failure r msg ->
  fetch_route start_coords end_coords mode net
  = ([HttpGet (route_url start_coords end_coords) routing_params;
      Print ("Error fetching route: " ++ msg)],
     inr PyNone)
  /\ main_body start_coords end_coords mode net
     = ([HttpGet (route_url start_coords end_coords) routing_params;
         Print ("Error fetching route: " ++ msg);
         Print "Couldn't retrieve the route."],
        inr tt).
Proof.
  intros H fail.
  pose proof (fetch_route_failure start_coords end_coords mode net r msg H fail) as F.
  split; [exact F |].
  unfold main_body, bind. rewrite F. reflexivity.
Qed.

Lemma route_failure_short_circuits_witness :
  main server_error_net
  = ([HttpGet (route_url start_location end_location) routing_params;
      Print "Error fetching route: 500 Server Error: Internal Server Error";
      Print "Couldn't retrieve the route."],
     inr tt).
Proof.
  refine (proj2 (route_failure_short_circuits start_location end_location "car"
                   server_error_net _ _ (serve_routing _ _ _ _ _)
                   (status_failure _ _))).
  unfold error_status; simpl; lia.
Defined.

(** C2, as stated, fails: a [300] status is not a 2xx one, yet
    [raise_for_status] lets it through, so a route in its body is
    returned, nothing is reported, and the driver goes on to the
    real-time call. *)
Lemma route_status_300_not_reported :
  non_2xx_failure
    (multiple_choices_net (route_url start_location end_location) routing_params)
  /\ fetch_route start_location end_location "car" multiple_choices_net
     = ([HttpGet (route_url start_location end_location) routing_params],
        inr (route_of_distance (PyInt 1000)))
  /\ requested (fst (main multiple_choices_net))
     = [(route_url start_location end_location, routing_params);
        (REALTIME_DATA_API_URL, [("mode", "car")])]
  /\ ~ In "Couldn't retrieve the route." (printed (fst (main multiple_choices_net))).
Proof.
  assert (F : fetch_route start_location end_location "car" multiple_choices_net
              = ([HttpGet (route_url start_location end_location) routing_params],
                 inr (route_of_distance (PyInt 1000)))).
  { eapply fetch_route_first.
    - apply serve_routing.
    - unfold error_status; simpl; lia.
    - reflexivity.
    - exists [("routes", PyList [route_of_distance (PyInt 1000)])], [].
      split; reflexivity. }
  split; [| split; [exact F |]].
  - unfold multiple_choices_net. rewrite serve_routing.
    apply non_2xx_status. unfold success_status; simpl; lia.
  - unfold main, main_body, bind. rewrite F.
    split; [vm_compute; reflexivity |].
    vm_compute. intros [H | [H | [H | [H | []]]]]; discriminate H.
Qed.

(** ** The driver after a route was fetched *)

Lemma thousand_not_zero : Float64.is_zero (Float64.literal 1000 1) = false.
Proof. vm_compute; reflexivity. Qed.

(** What [main] does once [fetch_route] returned the object [route]:
    the falsy exit, the missing-key error, or the division followed by
    the report. *)
Lemma main_body_after_fetch (start_coords end_coords : coords) (mode : string)
    (net : network) (t : list event) (route : pyval) :
  fetch_route start_coords end_coords mode net = (t, inr route) ->
  main_body start_coords end_coords mode net
  = if Py.truthy route
    then match Py.getitem route "distance" with
         | inl e => (t, inl e)
         | inr distance =>
             match Py.truediv distance (Float64.of_Z 1000) with
             | inl e => (t, inl e)
             | inr distance_km =>
                 let '(t', r) :=
                   main_report start_coords end_coords mode distance_km net in
                 ((t ++ t')%list, r)
             end
         end
    else ((t ++ [Print "Couldn't retrieve the route."])%list, inr tt).
Proof.
  intros F. unfold main_body, bind. rewrite F.
  destruct (Py.truthy route); cbn [negb]; [| reflexivity].
  unfold lift. rewrite (proj1 literal_1000).
  destruct (Py.getitem route "distance") as [e | distance];
    [rewrite app_nil_r; reflexivity |].
  destruct (Py.truediv distance (Float64.of_Z 1000)) as [e | km];
    [rewrite !app_nil_r; reflexivity |].
  destruct (main_report start_coords end_coords mode km net) as [t' r].
  reflexivity.
Qed.

(** C3.  When the routing response carries at least one route, the
    [distance_km] the driver works with is the [distance] field of the
    first route divided by the float [1000.0], with nothing else done to
    it: the run is the GET followed by the report for exactly that
    quotient. *)
Theorem distance_km_is_first_distance_over_1000 (start_coords end_coords : coords)
    (mode : string) (net : network) (resp : response) (body : pyval)
    (fields : list (string * pyval)) (distance : pyval) (meters : Float64.float) :
  net (route_url start_coords end_coords) routing_params = Responds resp ->
  success_status resp ->
  json resp = inr body ->
  has_first_route body (PyDict fields) ->
  Py.lookup "distance" fields = Some distance ->
  Py.as_float distance = inr meters ->
  main_body start_coords end_coords mode net
  = let '(t, r) :=
      main_report start_coords end_coords mode
        (Float64.div meters (Float64.of_Z 1000)) net in
    (HttpGet (route_url start_coords end_coords) routing_params :: t, r).
Proof.
  intros H ok Hjson Hfirst Hfield Hnum.
  rewrite (main_body_after_fetch _ _ _ _ _ _
             (fetch_route_first _ _ mode _ _ _ _ H (success_not_error _ ok) Hjson Hfirst)).
  destruct fields as [| item fields]; [discriminate Hfield |].
  cbn [Py.truthy Py.getitem]. rewrite Hfield.
  unfold Py.truediv. rewrite Hnum. reflexivity.
Qed.

Lemma distance_km_is_first_distance_over_1000_witness :
  main coast_to_coast_net
  = let '(t, r) :=
      main_report start_location end_location "car"
        (Float64.div (Float64.of_Z 500000) (Float64.of_Z 1000)) coast_to_coast_net in
    (HttpGet (route_url start_location end_location) routing_params :: t, r).
Proof.
  refine (distance_km_is_first_distance_over_1000 start_location end_location "car"
            coast_to_coast_net (ok_json (routes_body [route_of_distance (PyInt 500000)]))
            _ [("distance", PyInt 500000)] (PyInt 500000) (Float64.of_Z 500000)
            (serve_routing _ _ _ _ _) _ eq_refl _ eq_refl _).
  - unfold success_status; simpl; lia.
  - exists [("routes", PyList [route_of_distance (PyInt 500000)])], [].
    split; reflexivity.
  - vm_compute; reflexivity.
Defined.

(** C10 (as amended).  After a fetch that returned a first route which
    is a JSON object, the unguarded [route['distance']] behaves by the
    object's content: with the field present the access succeeds and the
    run goes on to the division by [1000.0]; a non-empty object without
    the field makes [main] end in an uncaught [KeyError]; the empty
    object is falsy, so the driver prints "Couldn't retrieve the route."
    and returns normally. *)
Theorem route_distance_access (start_coords end_coords : coords)
    (mode : string) (net : network) (resp : response) (body : pyval)
    (fields : list (string * pyval)) :
  net (route_url start_coords end_coords) routing_params = Responds resp ->
  success_status resp ->
  json resp = inr body ->
  has_first_route body (PyDict fields) ->
  main_body start_coords end_coords mode net
  = match fields, Py.lookup "distance" fields with
    | [], _ =>
        ([HttpGet (route_url start_coords end_coords) routing_params;
          Print "Couldn't retrieve the route."],
         inr tt)
    | _ :: _, None =>
        ([HttpGet (route_url start_coords end_coords) routing_params],
         inl (KeyError (PyStr "distance")))
    | _ :: _, Some distance =>
        let '(t, r) :=
          (distance_km <- lift (Py.truediv distance (Float64.of_Z 1000)) ;;
           main_report start_coords end_coords mode distance_km) net in
        (HttpGet (route_url start_coords end_coords) routing_params :: t, r)
    end.
Proof.
  intros H ok Hjson Hfirst.
  rewrite (main_body_after_fetch _ _ _ _ _ _
             (fetch_route_first _ _ mode _ _ _ _ H (success_not_error _ ok) Hjson Hfirst)).
  destruct fields as [| item fields]; [reflexivity |].
  cbn [Py.truthy Py.getitem].
  destruct (Py.lookup "distance" (item :: fields)) as [distance |]; [| reflexivity].
  unfold bind, lift.
  destruct (Py.truediv distance (Float64.of_Z 1000)) as [e | km]; [reflexivity |].
  destruct (main_report start_coords end_coords mode km net) as [t r].
  reflexivity.
Qed.

Lemma route_distance_access_witness :
  main no_distance_net
  = ([HttpGet (route_url start_location end_location) routing_params],
     inl (KeyError (PyStr "distance"))).
Proof.
  refine (route_distance_access start_location end_location "car" no_distance_net
            (ok_json (routes_body [PyDict [("duration", PyInt 60)]]))
            _ [("duration", PyInt 60)] (serve_routing _ _ _ _ _) _ eq_refl _).
  - unfold success_status; simpl; lia.
  - exists [("routes", PyList [PyDict [("duration", PyInt 60)]])], [].
    split; reflexivity.
Defined.

(** C10, as stated, fails on the first route [{}]: the fetch succeeds
    and the route has no [distance] field, yet no [KeyError] is raised:
    the empty object is falsy and takes the "Couldn't retrieve the
    route." exit. *)
Lemma empty_route_object_no_KeyError :
  fetch_route start_location end_location "car" empty_route_net
  = ([HttpGet (route_url start_location end_location) routing_params],
     inr (PyDict []))
  /\ Py.lookup "distance" (@nil (string * pyval)) = None
  /\ main empty_route_net
     = ([HttpGet (route_url start_location end_location) routing_params;
         Print "Couldn't retrieve the route."],
        inr tt)
  /\ snd (main empty_route_net) <> inl (KeyError (PyStr "distance")).
Proof.
  assert (F : fetch_route start_location end_location "car" empty_route_net
              = ([HttpGet (route_url start_location end_location) routing_params],
                 inr (PyDict []))).
  { eapply fetch_route_first.
    - apply serve_routing.
    - unfold error_status; simpl; lia.
    - reflexivity.
    - exists [("routes", PyList [PyDict []])], []. split; reflexivity. }
  assert (R : main empty_route_net
              = ([HttpGet (route_url start_location end_location) routing_params;
                  Print "Couldn't retrieve the route."],
                 inr tt)).
  { unfold main. rewrite (main_body_after_fetch _ _ _ _ _ _ F). reflexivity. }
  repeat split; try assumption.
  rewrite R. discriminate.
Qed.

(** ** [fetch_realtime_data] *)

Lemma fetch_realtime_data_failure (mode : string) (net : network)
    (r : reply) (msg : string) :
  net REALTIME_DATA_API_URL [("mode", mode)] = r ->
  transport_failure r msg ->
  fetch_realtime_data mode net
  = ([HttpGet REALTIME_DATA_API_URL [("mode", mode)];
      Print ("Error fetching real-time data: " ++ msg)],
     inr (PyNone, PyNone)).
Proof.
  intros H fail. destruct fail as [msg | resp bad]; run_request H.
  - reflexivity.
  - rewrite (raise_for_status_error resp net bad). reflexivity.
Qed.

(** C7.  On every transport failure of the real-time call
    ([requests.get] raises a [RequestException], or the status is one
    [raise_for_status] rejects) [fetch_realtime_data] prints the error
    and returns [(None, None)]; nothing is raised to the driver. *)
Theorem realtime_failure_gives_absent_pair (mode : string) (net : network)
    (r : reply) (msg : string) :
  net REALTIME_DATA_API_URL [("mode", mode)] = r ->
  transport_failure r msg ->
  fetch_realtime_data mode net
  = ([HttpGet REALTIME_DATA_API_URL [("mode", mode)];
      Print ("Error fetching real-time data: " ++ msg)],
     inr (PyNone, PyNone))
  /\ exists value, snd (fetch_realtime_data mode net) = inr value.
Proof.
  intros H fail.
  rewrite (fetch_realtime_data_failure mode net r msg H fail).
  split; [reflexivity | exists (PyNone, PyNone); reflexivity].
Qed.

Lemma realtime_failure_gives_absent_pair_witness :
  fetch_realtime_data "car" offline_net
  = ([HttpGet REALTIME_DATA_API_URL [("mode", "car")];
      Print "Error fetching real-time data: connection refused"],
     inr (PyNone, PyNone)).
Proof.
  exact (proj1 (realtime_failure_gives_absent_pair "car" offline_net _ _
                  eq_refl (connection_failure "connection refused"))).
Defined.

(** C9.  A 2xx real-time response whose JSON object lacks the key
    "cost" (or "emissions") gives [None] in that position and prints
    nothing; the value in that position is the one a transport failure
    gives. *)
Theorem realtime_missing_field_is_silent (mode : string) (net : network)
    (resp : response) (d : list (string * pyval)) :
  net REALTIME_DATA_API_URL [("mode", mode)] = Responds resp ->
  success_status resp ->
  json resp = inr (PyDict d) ->
  Py.lookup "cost" d = None \/ Py.lookup "emissions" d = None ->
  exists cost emissions,
    fetch_realtime_data mode net
    = ([HttpGet REALTIME_DATA_API_URL [("mode", mode)]], inr (cost, emissions))
    /\ (Py.lookup "cost" d = None -> cost = PyNone)
    /\ (Py.lookup "emissions" d = None -> emissions = PyNone)
    /\ forall (net' : network) (r : reply) (msg : string),
         net' REALTIME_DATA_API_URL [("mode", mode)] = r ->
         transport_failure r msg ->
         exists cost' emissions',
           snd (fetch_realtime_data mode net') = inr (cost', emissions')
           /\ (Py.lookup "cost" d = None -> cost = cost')
           /\ (Py.lookup "emissions" d = None -> emissions = emissions').
Proof.
  intros H ok Hjson _.
  exists (match Py.lookup "cost" d with Some x => x | None => PyNone end),
         (match Py.lookup "emissions" d with Some x => x | None => PyNone end).
  split; [| split; [| split]].
  - run_request H.
    rewrite (raise_for_status_success resp net (success_not_error _ ok)), Hjson.
    reflexivity.
  - intros ->. reflexivity.
  - intros ->. reflexivity.
  - intros net' r msg H' fail. exists PyNone, PyNone.
    rewrite (fetch_realtime_data_failure mode net' r msg H' fail).
    split; [reflexivity |]. split; intros ->; reflexivity.
Qed.

Lemma realtime_missing_field_is_silent_witness :
  exists cost emissions,
    fetch_realtime_data "car" costless_net
    = ([HttpGet REALTIME_DATA_API_URL [("mode", "car")]], inr (cost, emissions))
    /\ cost = PyNone.
Proof.
  destruct (realtime_missing_field_is_silent "car" costless_net
              (ok_json (PyDict [("emissions", PyInt 1000)]))
              [("emissions", PyInt 1000)] eq_refl
              ltac:(unfold success_status; simpl; lia) eq_refl
              (or_introl eq_refl))
    as (cost & emissions & run & absent & _).
  exists cost, emissions. split; [exact run | apply absent; reflexivity].
Defined.

(** ** Noninterference of [mode] in [fetch_route] *)

Lemma fetch_route_one_request (start_coords end_coords : coords) (mode : string)
    (net : network) :
  requested (fst (fetch_route start_coords end_coords mode net))
  = [(route_url start_coords end_coords, routing_params)].
Proof.
  unfold fetch_route, try_except_RequestException, bind, requests.get,
    requests.raise_for_status, requests.json, lift, ret, raise, print.
  destruct (net (route_url start_coords end_coords)
              [("geometries", "geojson"); ("overview", "simplified")])
    as [e | resp].
  - destruct e; reflexivity.
  - destruct ((400 <=? status_code resp) && (status_code resp <? 600));
      [reflexivity |].
    destruct (json resp) as [e | data]; [destruct e; reflexivity |].
    destruct (Py.contains "routes" data) as [e | has]; [destruct e; reflexivity |].
    destruct has; [| reflexivity].
    destruct (Py.getitem data "routes") as [e | routes]; [destruct e; reflexivity |].
    cbn [fst snd app].
    destruct (Py.truthy routes); [| reflexivity].
    destruct (Py.getitem0 routes) as [e | first]; [destruct e |]; reflexivity.
Qed.

(** C8.  The [mode] argument of [fetch_route] has no effect: two runs
    that differ only in the mode give the same trace and the same
    result, and the one request either issues goes to the
    driving-profile endpoint. *)
Theorem fetch_route_ignores_mode (start_coords end_coords : coords)
    (mode1 mode2 : string) (net : network) :
  fetch_route start_coords end_coords mode1 net
  = fetch_route start_coords end_coords mode2 net
  /\ requested (fst (fetch_route start_coords end_coords mode1 net))
     = [(route_url start_coords end_coords, routing_params)]
  /\ requested (fst (fetch_route start_coords end_coords mode2 net))
     = [(route_url start_coords end_coords, routing_params)]
  /\ prefix "http://router.project-osrm.org/route/v1/driving/"
       (route_url start_coords end_coords) = true.
Proof.
  split; [reflexivity |].
  split; [apply fetch_route_one_request |].
  split; [apply fetch_route_one_request |].
  unfold route_url, OSM_ROUTING_API_URL.
  exact (prefix_append "http://router.project-osrm.org/route/v1/driving/" _).
Qed.

(** ** [calculate_emissions] and the report *)

Lemma unknown_mode_lookup (mode : string) :
  ~ known_mode mode -> Py.lookup mode EMISSION_FACTORS = None.
Proof.
  unfold known_mode, EMISSION_FACTORS. intros unknown. cbn [Py.lookup].
  destruct (String.eqb_spec mode "car") as [-> | _];
    [exfalso; apply unknown; simpl; tauto |].
  destruct (String.eqb_spec mode "bus") as [-> | _];
    [exfalso; apply unknown; simpl; tauto |].
  destruct (String.eqb_spec mode "bike") as [-> | _];
    [exfalso; apply unknown; simpl; tauto |].
  destruct (String.eqb_spec mode "walk") as [-> | _];
    [exfalso; apply unknown; simpl; tauto |].
  reflexivity.
Qed.

Lemma calculate_emissions_unknown (distance_km : pyval) (mode : string)
    (net : network) :
  ~ known_mode mode ->
  calculate_emissions distance_km mode net
  = ([Print (not_found_line mode)], inr PyNone).
Proof.
  intros unknown. unfold calculate_emissions.
  rewrite (unknown_mode_lookup mode unknown). reflexivity.
Qed.

(** The report, given what the real-time call and the estimate gave. *)
Lemma main_report_run (start_coords end_coords : coords) (mode : string)
    (km : Float64.float) (net : network)
    (t te : list event) (cost emissions estimate : pyval) :
  fetch_realtime_data mode net = (t, inr (cost, emissions)) ->
  calculate_emissions (PyFloat km) mode net = (te, inr estimate) ->
  main_report start_coords end_coords mode km net
  = match cost_lines cost with
    | (tc, inl e) =>
        ((t ++ te ++ [Print (route_line start_coords end_coords mode);
                      Print (distance_line km)] ++ tc)%list, inl e)
    | (tc, inr _) =>
        if Py.is_none estimate
        then ((t ++ te ++ [Print (route_line start_coords end_coords mode);
                           Print (distance_line km)] ++ tc)%list, inr tt)
        else match Py.format_2f estimate with
             | inl e =>
                 ((t ++ te ++ [Print (route_line start_coords end_coords mode);
                               Print (distance_line km)] ++ tc)%list, inl e)
             | inr text =>
                 ((t ++ te ++ [Print (route_line start_coords end_coords mode);
                               Print (distance_line km)] ++ tc
                     ++ [Print ("Estimated emissions: " ++ text ++ " kg CO2")])%list,
                  inr tt)
             end
    end.
Proof.
  intros R E. unfold main_report, bind. rewrite R, E.
  unfold cost_lines, print, lift, ret, route_line, distance_line.
  destruct (Py.truthy cost); [destruct (Py.format_2f cost) as [e | text] |];
    cbn [negb app]; try reflexivity;
    destruct (Py.is_none estimate); cbn [negb app]; try reflexivity;
    destruct (Py.format_2f estimate) as [e' | text']; reflexivity.
Qed.

(** C5.  For every mode string outside {car, bus, bike, walk},
    [calculate_emissions] prints the factor-not-found line and returns
    [None]; the driver is not aborted by it: the report goes on with the
    route and distance lines and the cost part, and only the emissions
    line is left out. *)
Theorem unknown_mode_reported_not_fatal (mode : string) (distance : pyval)
    (start_coords end_coords : coords) (km : Float64.float) (net : network)
    (t : list event) (cost emissions : pyval) :
  ~ known_mode mode ->
  fetch_realtime_data mode net = (t, inr (cost, emissions)) ->
  calculate_emissions distance mode net
  = ([Print ("Emission factor for mode '" ++ mode ++ "' not found")], inr PyNone)
  /\ main_report start_coords end_coords mode km net
     = ((t ++ [Print ("Emission factor for mode '" ++ mode ++ "' not found");
               Print (route_line start_coords end_coords mode);
               Print (distance_line km)]
           ++ fst (cost_lines cost))%list,
        snd (cost_lines cost)).
Proof.
  intros unknown R.
  split; [exact (calculate_emissions_unknown distance mode net unknown) |].
  rewrite (main_report_run _ _ _ _ _ _ _ _ _ _ R
             (calculate_emissions_unknown (PyFloat km) mode net unknown)).
  destruct (cost_lines cost) as [tc [e | []]]; reflexivity.
Qed.

Lemma unknown_mode_reported_not_fatal_witness :
  calculate_emissions (PyFloat (Float64.of_Z 12)) "train" offline_net
  = ([Print "Emission factor for mode 'train' not found"], inr PyNone)
  /\ main_report start_location end_location "train" (Float64.of_Z 12) offline_net
     = ([HttpGet REALTIME_DATA_API_URL [("mode", "train")];
         Print "Error fetching real-time data: connection refused";
         Print "Emission factor for mode 'train' not found";
         Print (route_line start_location end_location "train");
         Print (distance_line (Float64.of_Z 12))],
        inr tt).
Proof.
  refine (unknown_mode_reported_not_fatal "train" (PyFloat (Float64.of_Z 12))
            start_location end_location (Float64.of_Z 12) offline_net
            _ PyNone PyNone _
            (fetch_realtime_data_failure "train" offline_net _ _ eq_refl
               (connection_failure "connection refused"))).
  unfold known_mode. simpl. intros [H | [H | [H | [H | []]]]]; discriminate H.
Defined.

Example literal_27_1 :
  Float64.repr (Float64.literal 271 10) = "27.1"
  /\ Float64.repr (Float64.literal 100 1) = "100.0".
Proof. split; vm_compute; reflexivity. Qed.

Lemma mul_zero_of_finite_nonnegative (x : Float64.float) :
  Float64.is_finite x = true -> nonnegative x ->
  equals_zero (Float64.mul x Float64.zero).
Proof.
  unfold nonnegative, equals_zero.
  destruct x as [s | s | | s m e]; intros fin pos; try discriminate fin.
  - destruct s; reflexivity.
  - destruct s; [discriminate pos | reflexivity].
Qed.

(** C4 (as amended).  For the modes "bike" and "walk",
    [calculate_emissions] returns a float equal to [0.0] for every
    numeric [distance_km] whose float value is finite and [>= 0]; for
    the mode "car" and [distance_km = 100.0] it returns the float
    [27.1]. *)
Theorem zero_emission_modes_and_car (distance_km : pyval) (x : Float64.float)
    (mode : string) (net : network) :
  mode = "bike" \/ mode = "walk" ->
  Py.as_float distance_km = inr x ->
  Float64.is_finite x = true ->
  nonnegative x ->
  (exists z, calculate_emissions distance_km mode net = ([], inr (PyFloat z))
             /\ equals_zero z)
  /\ calculate_emissions (PyFloat (Float64.literal 100 1)) "car" net
     = ([], inr (PyFloat (Float64.literal 271 10))).
Proof.
  intros Hmode Hnum fin pos. split.
  - exists (Float64.mul x Float64.zero).
    split; [| exact (mul_zero_of_finite_nonnegative x fin pos)].
    destruct Hmode as [-> | ->];
      unfold calculate_emissions, EMISSION_FACTORS; cbn [Py.lookup String.eqb Ascii.eqb Bool.eqb];
      unfold bind, lift, ret, Py.mul; rewrite Hnum; reflexivity.
  - unfold calculate_emissions. vm_compute. reflexivity.
Qed.

Lemma zero_emission_modes_and_car_witness :
  (exists z, calculate_emissions (PyFloat (Float64.literal 125 10)) "walk" offline_net
             = ([], inr (PyFloat z))
             /\ equals_zero z)
  /\ calculate_emissions (PyFloat (Float64.literal 100 1)) "car" offline_net
     = ([], inr (PyFloat (Float64.literal 271 10))).
Proof.
  apply (zero_emission_modes_and_car (PyFloat (Float64.literal 125 10))
           (Float64.literal 125 10) "walk" offline_net).
  - right; reflexivity.
  - reflexivity.
  - vm_compute; reflexivity.
  - vm_compute; reflexivity.
Defined.

(** C4, as stated, fails at [distance_km = inf]: infinity is [>= 0],
    and [inf * 0.0] is [nan], which is not equal to [0.0]. *)
Lemma infinite_distance_gives_nan :
  nonnegative (S754_infinity false)
  /\ calculate_emissions (PyFloat (S754_infinity false)) "bike" offline_net
     = ([], inr (PyFloat S754_nan))
  /\ ~ equals_zero S754_nan.
Proof.
  split; [reflexivity |]. split; [reflexivity |].
  unfold equals_zero. discriminate.
Qed.

(** ** The 500 km scenario *)

Lemma calculate_emissions_car_500 (net : network) :
  calculate_emissions (PyFloat (Float64.of_Z 500)) "car" net
  = ([], inr (PyFloat (Float64.literal 1355 10))).
Proof. unfold calculate_emissions. vm_compute. reflexivity. Qed.

Lemma half_million_metres (distance : pyval) :
  distance = PyInt 500000 \/ distance = PyFloat (Float64.of_Z 500000) ->
  Py.truediv distance (Float64.of_Z 1000) = inr (Float64.of_Z 500).
Proof. intros [-> | ->]; vm_compute; reflexivity. Qed.

(** C6.  The routing call succeeds with a first route of 500000 metres
    (as a JSON integer or float), the mode is "car" and the real-time
    call fails: the output has the line "Distance: 500.00 km", no cost
    line, and the line "Estimated emissions: 135.50 kg CO2"; the run
    ends normally. *)
Theorem report_for_500_km_by_car (net : network) (resp : response)
    (body : pyval) (fields : list (string * pyval)) (distance : pyval)
    (r : reply) (msg : string) :
  net (route_url start_location end_location) routing_params = Responds resp ->
  success_status resp ->
  json resp = inr body ->
  has_first_route body (PyDict fields) ->
  Py.lookup "distance" fields = Some distance ->
  distance = PyInt 500000 \/ distance = PyFloat (Float64.of_Z 500000) ->
  net REALTIME_DATA_API_URL [("mode", "car")] = r ->
  transport_failure r msg ->
  printed (fst (main net))
  = ["Error fetching real-time data: " ++ msg;
     "Route from (40.712776, -74.005974) to (34.052235, -118.243683) via car:";
     "Distance: 500.00 km";
     "Estimated emissions: 135.50 kg CO2"]
  /\ snd (main net) = inr tt
  /\ In "Distance: 500.00 km" (printed (fst (main net)))
  /\ In "Estimated emissions: 135.50 kg CO2" (printed (fst (main net)))
  /\ forall line, In line (printed (fst (main net))) ->
                  prefix "Estimated cost" line = false.
Proof.
  intros H ok Hjson Hfirst Hfield Hdist Hrt fail.
  assert (run : main net
                = ([HttpGet (route_url start_location end_location) routing_params;
                    HttpGet REALTIME_DATA_API_URL [("mode", "car")];
                    Print ("Error fetching real-time data: " ++ msg);
                    Print (route_line start_location end_location "car");
                    Print (distance_line (Float64.of_Z 500));
                    Print "Estimated emissions: 135.50 kg CO2"],
                   inr tt)).
  { unfold main.
    rewrite (main_body_after_fetch _ _ _ _ _ _
               (fetch_route_first _ _ "car" _ _ _ _ H (success_not_error _ ok)
                  Hjson Hfirst)).
    destruct fields as [| item fields]; [discriminate Hfield |].
    cbn [Py.truthy Py.getitem]. rewrite Hfield, (half_million_metres _ Hdist).
    rewrite (main_report_run _ _ _ _ _ _ _ _ _ _
               (fetch_realtime_data_failure "car" net r msg Hrt fail)
               (calculate_emissions_car_500 net)).
    reflexivity. }
  assert (out : printed (fst (main net))
                = ["Error fetching real-time data: " ++ msg;
                   "Route from (40.712776, -74.005974) to (34.052235, -118.243683) via car:";
                   "Distance: 500.00 km";
                   "Estimated emissions: 135.50 kg CO2"]).
  { rewrite run. cbn [fst printed flat_map app].
    unfold route_line, distance_line.
    rewrite (proj1 start_location_text), (proj2 start_location_text).
    reflexivity. }
  split; [exact out |].
  split; [rewrite run; reflexivity |].
  rewrite out.
  split; [simpl; tauto |]. split; [simpl; tauto |].
  intros line [<- | [<- | [<- | [<- | []]]]]; reflexivity.
Qed.

Lemma report_for_500_km_by_car_witness :
  printed (fst (main coast_to_coast_net))
  = ["Error fetching real-time data: connection refused";
     "Route from (40.712776, -74.005974) to (34.052235, -118.243683) via car:";
     "Distance: 500.00 km";
     "Estimated emissions: 135.50 kg CO2"].
Proof.
  refine (proj1 (report_for_500_km_by_car coast_to_coast_net
                   (ok_json (routes_body [route_of_distance (PyInt 500000)]))
                   _ [("distance", PyInt 500000)] (PyInt 500000) _ _
                   (serve_routing _ _ _ _ _) _ eq_refl _ eq_refl
                   (or_introl eq_refl) eq_refl
                   (connection_failure "connection refused"))).
  - unfold success_status; simpl; lia.
  - exists [("routes", PyList [route_of_distance (PyInt 500000)])], [].
    split; reflexivity.
Defined.

(** * Further properties of the code *)

(** ** [fetch_route] off the expected response shape *)

Lemma main_body_fetch_raises (start_coords end_coords : coords) (mode : string)
    (net : network) (t : list event) (e : exn) :
  fetch_route start_coords end_coords mode net = (t, inl e) ->
  main_body start_coords end_coords mode net = (t, inl e).
Proof. intros F. unfold main_body, bind. rewrite F. reflexivity. Qed.

(** X1.  When the status passes [raise_for_status] and the JSON object
    has no "routes" key, or a falsy value under it ([[]], [null], [0],
    [""], [{}], [false]), [fetch_route] raises the plain
    [Exception("No route found")]: nothing is printed, nothing is
    returned, and [main] ends with that exception right after the
    routing request. *)
Theorem unusable_routes_raise (start_coords end_coords : coords) (mode : string)
    (net : network) (resp : response) (d : list (string * pyval)) :
  net (route_url start_coords end_coords) routing_params = Responds resp ->
  ~ error_status resp ->
  json resp = inr (PyDict d) ->
  routes_unusable d ->
  fetch_route start_coords end_coords mode net
  = ([HttpGet (route_url start_coords end_coords) routing_params],
     inl (Exception "No route found"))
  /\ main_body start_coords end_coords mode net
     = ([HttpGet (route_url start_coords end_coords) routing_params],
        inl (Exception "No route found")).
Proof.
  intros H ok Hjson bad.
  assert (F : fetch_route start_coords end_coords mode net
              = ([HttpGet (route_url start_coords end_coords) routing_params],
                 inl (Exception "No route found"))).
  { run_request H. rewrite (raise_for_status_success resp net ok), Hjson.
    unfold routes_unusable in bad. cbn [Py.contains Py.getitem].
    destruct (Py.lookup "routes" d) as [routes |]; [| reflexivity].
    cbn [fst snd app]. rewrite bad. reflexivity. }
  split; [exact F | exact (main_body_fetch_raises _ _ _ _ _ _ F)].
Qed.

Lemma unusable_routes_raise_witness :
  main no_routes_key_net
  = ([HttpGet (route_url start_location end_location) routing_params],
     inl (Exception "No route found")).
Proof.
  refine (proj2 (unusable_routes_raise start_location end_location "car"
                   no_routes_key_net (ok_json (PyDict [("message", PyStr "Ok")]))
                   [("message", PyStr "Ok")] (serve_routing _ _ _ _ _) _ eq_refl _)).
  - unfold error_status; simpl; lia.
  - unfold routes_unusable; simpl; exact I.
Defined.

(** X2.  An exception of [requests.get] that is not a
    [RequestException] is not handled: it leaves [fetch_route] and
    [main] unchanged, after the one request and with nothing printed. *)
Theorem foreign_exception_propagates (start_coords end_coords : coords)
    (mode : string) (net : network) (e : exn) :
  net (route_url start_coords end_coords) routing_params = Raises e ->
  is_request_exception e = false ->
  fetch_route start_coords end_coords mode net
  = ([HttpGet (route_url start_coords end_coords) routing_params], inl e)
  /\ main_body start_coords end_coords mode net
     = ([HttpGet (route_url start_coords end_coords) routing_params], inl e).
Proof.
  intros H foreign.
  assert (F : fetch_route start_coords end_coords mode net
              = ([HttpGet (route_url start_coords end_coords) routing_params],
                 inl e)).
  { run_request H. destruct e; try reflexivity. discriminate foreign. }
  split; [exact F | exact (main_body_fetch_raises _ _ _ _ _ _ F)].
Qed.

Lemma foreign_exception_propagates_witness :
  main (raising_net ValueError)
  = ([HttpGet (route_url start_location end_location) routing_params],
     inl ValueError).
Proof.
  exact (proj2 (foreign_exception_propagates start_location end_location "car"
                  (raising_net ValueError) ValueError
                  (serve_routing _ _ _ _ _) eq_refl)).
Defined.

(** X3.  When [response.json()] fails on an accepted status, what
    happens depends on the class of the decoder's exception alone: a
    [RequestException] is reported and turned into [None] like a
    transport failure, any other class leaves [fetch_route] uncaught. *)
Theorem undecodable_body_by_class (start_coords end_coords : coords)
    (mode : string) (net : network) (resp : response) (e : exn) :
  net (route_url start_coords end_coords) routing_params = Responds resp ->
  ~ error_status resp ->
  json resp = inl e ->
  fetch_route start_coords end_coords mode net
  = match e with
    | RequestException msg =>
        ([HttpGet (route_url start_coords end_coords) routing_params;
          Print ("Error fetching route: " ++ msg)],
         inr PyNone)
    | _ => ([HttpGet (route_url start_coords end_coords) routing_params], inl e)
    end.
Proof.
  intros H ok Hjson. run_request H.
  rewrite (raise_for_status_success resp net ok), Hjson.
  destruct e; reflexivity.
Qed.

Lemma undecodable_body_by_class_witness :
  fetch_route start_location end_location "car"
    (undecodable_net (RequestException "Expecting value"))
  = ([HttpGet (route_url start_location end_location) routing_params;
      Print "Error fetching route: Expecting value"],
     inr PyNone)
  /\ fetch_route start_location end_location "car" (undecodable_net ValueError)
     = ([HttpGet (route_url start_location end_location) routing_params],
        inl ValueError).
Proof.
  split.
  - refine (undecodable_body_by_class start_location end_location "car"
              (undecodable_net (RequestException "Expecting value")) _ _
              (serve_routing _ _ _ _ _) _ eq_refl).
    unfold error_status; simpl; lia.
  - refine (undecodable_body_by_class start_location end_location "car"
              (undecodable_net ValueError) _ _
              (serve_routing _ _ _ _ _) _ eq_refl).
    unfold error_status; simpl; lia.
Defined.

(** X4.  A decoded body that is not a JSON object never yields a
    route: [fetch_route] raises, either [TypeError] (the body is not a
    container, or it is a list or text that contains "routes" and cannot
    be indexed by it) or [Exception("No route found")]; nothing is
    printed. *)
Theorem non_object_body_raises (start_coords end_coords : coords)
    (mode : string) (net : network) (resp : response) (body : pyval) :
  net (route_url start_coords end_coords) routing_params = Responds resp ->
  ~ error_status resp ->
  json resp = inr body ->
  is_object body = false ->
  exists e,
    fetch_route start_coords end_coords mode net
    = ([HttpGet (route_url start_coords end_coords) routing_params], inl e)
    /\ (e = TypeError \/ e = Exception "No route found").
Proof.
  intros H ok Hjson shape. run_request H.
  rewrite (raise_for_status_success resp net ok), Hjson.
  destruct body as [| b | n | x | s | l | d]; try discriminate shape;
    cbn [Py.contains Py.getitem];
    try (exists TypeError; split; [reflexivity | left; reflexivity]).
  - destruct (Py.infix "routes" s).
    + exists TypeError; split; [reflexivity | left; reflexivity].
    + exists (Exception "No route found"); split; [reflexivity | right; reflexivity].
  - destruct (existsb _ l).
    + exists TypeError; split; [reflexivity | left; reflexivity].
    + exists (Exception "No route found"); split; [reflexivity | right; reflexivity].
Qed.

Lemma non_object_body_raises_witness :
  exists e,
    fetch_route start_location end_location "car" array_body_net
    = ([HttpGet (route_url start_location end_location) routing_params], inl e)
    /\ (e = TypeError \/ e = Exception "No route found").
Proof.
  refine (non_object_body_raises start_location end_location "car" array_body_net
            (ok_json (PyList [])) (PyList [])
            (serve_routing _ _ _ _ _) _ eq_refl eq_refl).
  unfold error_status; simpl; lia.
Defined.

(** ** The driver on routes off the expected shape *)

(** X5.  A first route that is falsy ([null], [0], [0.0], [false],
    [""], [[]], [{}]) is returned by [fetch_route] without any report,
    and the driver treats it as a failed fetch: it prints "Couldn't
    retrieve the route." and returns normally, with no further request. *)
Theorem falsy_first_route_reads_as_failure (start_coords end_coords : coords)
    (mode : string) (net : network) (resp : response) (body first : pyval) :
  net (route_url start_coords end_coords) routing_params = Responds resp ->
  ~ error_status resp ->
  json resp = inr body ->
  has_first_route body first ->
  Py.truthy first = false ->
  fetch_route start_coords end_coords mode net
  = ([HttpGet (route_url start_coords end_coords) routing_params], inr first)
  /\ main_body start_coords end_coords mode net
     = ([HttpGet (route_url start_coords end_coords) routing_params;
         Print "Couldn't retrieve the route."],
        inr tt).
Proof.
  intros H ok Hjson Hfirst falsy.
  pose proof (fetch_route_first _ _ mode _ _ _ _ H ok Hjson Hfirst) as F.
  split; [exact F |].
  rewrite (main_body_after_fetch _ _ _ _ _ _ F), falsy. reflexivity.
Qed.

Lemma falsy_first_route_reads_as_failure_witness :
  main null_route_net
  = ([HttpGet (route_url start_location end_location) routing_params;
      Print "Couldn't retrieve the route."],
     inr tt).
Proof.
  refine (proj2 (falsy_first_route_reads_as_failure start_location end_location
                   "car" null_route_net (ok_json (routes_body [PyNone])) _ PyNone
                   (serve_routing _ _ _ _ _) _ eq_refl _ eq_refl)).
  - unfold error_status; simpl; lia.
  - exists [("routes", PyList [PyNone])], []. split; reflexivity.
Defined.

(** X6.  A first route that is truthy but not a JSON object (a number,
    [true], a non-empty text or list) makes [route['distance']] raise
    [TypeError]: [main] ends with it uncaught, right after the routing
    request and with nothing printed. *)
Theorem non_object_route_raises_TypeError (start_coords end_coords : coords)
    (mode : string) (net : network) (resp : response) (body first : pyval) :
  net (route_url start_coords end_coords) routing_params = Responds resp ->
  ~ error_status resp ->
  json resp = inr body ->
  has_first_route body first ->
  Py.truthy first = true ->
  is_object first = false ->
  main_body start_coords end_coords mode net
  = ([HttpGet (route_url start_coords end_coords) routing_params], inl TypeError).
Proof.
  intros H ok Hjson Hfirst truthy shape.
  rewrite (main_body_after_fetch _ _ _ _ _ _
             (fetch_route_first _ _ mode _ _ _ _ H ok Hjson Hfirst)), truthy.
  destruct first; try discriminate shape; reflexivity.
Qed.

Lemma non_object_route_raises_TypeError_witness :
  main number_route_net
  = ([HttpGet (route_url start_location end_location) routing_params],
     inl TypeError).
Proof.
  refine (non_object_route_raises_TypeError start_location end_location "car"
            number_route_net (ok_json (routes_body [PyInt 7])) _ (PyInt 7)
            (serve_routing _ _ _ _ _) _ eq_refl _ eq_refl eq_refl).
  - unfold error_status; simpl; lia.
  - exists [("routes", PyList [PyInt 7])], []. split; reflexivity.
Defined.

(** X7.  When the [distance] of the first route cannot be taken as a
    float ([TypeError] for a text, list, object or [null];
    [OverflowError] for an int beyond the float range), the division by
    [1000.0] raises that error and [main] ends with it uncaught: the
    real-time service is never called and nothing is printed. *)
Theorem unusable_distance_raises (start_coords end_coords : coords)
    (mode : string) (net : network) (resp : response) (body : pyval)
    (fields : list (string * pyval)) (distance : pyval) (e : exn) :
  net (route_url start_coords end_coords) routing_params = Responds resp ->
  ~ error_status resp ->
  json resp = inr body ->
  has_first_route body (PyDict fields) ->
  Py.lookup "distance" fields = Some distance ->
  Py.as_float distance = inl e ->
  main_body start_coords end_coords mode net
  = ([HttpGet (route_url start_coords end_coords) routing_params], inl e).
Proof.
  intros H ok Hjson Hfirst Hfield Hnum.
  rewrite (main_body_after_fetch _ _ _ _ _ _
             (fetch_route_first _ _ mode _ _ _ _ H ok Hjson Hfirst)).
  destruct fields as [| item fields]; [discriminate Hfield |].
  cbn [Py.truthy Py.getitem]. rewrite Hfield.
  unfold Py.truediv. rewrite Hnum. reflexivity.
Qed.

Lemma unusable_distance_raises_witness :
  main text_distance_net
  = ([HttpGet (route_url start_location end_location) routing_params],
     inl TypeError).
Proof.
  refine (unusable_distance_raises start_location end_location "car"
            text_distance_net (ok_json (routes_body [route_of_distance (PyStr "far")]))
            _ [("distance", PyStr "far")] (PyStr "far") TypeError
            (serve_routing _ _ _ _ _) _ eq_refl _ eq_refl eq_refl).
  - unfold error_status; simpl; lia.
  - exists [("routes", PyList [route_of_distance (PyStr "far")])], [].
    split; reflexivity.
Defined.

(** ** [fetch_realtime_data] and the report off the expected shape *)

Lemma fetch_realtime_data_object (mode : string) (net : network)
    (resp : response) (d : list (string * pyval)) :
  net REALTIME_DATA_API_URL [("mode", mode)] = Responds resp ->
  ~ error_status resp ->
  json resp = inr (PyDict d) ->
  fetch_realtime_data mode net
  = ([HttpGet REALTIME_DATA_API_URL [("mode", mode)]],
     inr (match Py.lookup "cost" d with Some x => x | None => PyNone end,
          match Py.lookup "emissions" d with Some x => x | None => PyNone end)).
Proof.
  intros H ok Hjson. run_request H.
  rewrite (raise_for_status_success resp net ok), Hjson. reflexivity.
Qed.

(** X8.  A real-time body that decodes to anything but a JSON object
    has no [get]: [fetch_realtime_data] raises [AttributeError], which
    is not handled; the driver's report ends with it before any of its
    lines is printed and before the emission estimate is made. *)
Theorem realtime_non_object_body_raises (start_coords end_coords : coords)
    (mode : string) (km : Float64.float) (net : network)
    (resp : response) (body : pyval) :
  net REALTIME_DATA_API_URL [("mode", mode)] = Responds resp ->
  ~ error_status resp ->
  json resp = inr body ->
  is_object body = false ->
  fetch_realtime_data mode net
  = ([HttpGet REALTIME_DATA_API_URL [("mode", mode)]], inl AttributeError)
  /\ main_report start_coords end_coords mode km net
     = ([HttpGet REALTIME_DATA_API_URL [("mode", mode)]], inl AttributeError).
Proof.
  intros H ok Hjson shape.
  assert (F : fetch_realtime_data mode net
              = ([HttpGet REALTIME_DATA_API_URL [("mode", mode)]],
                 inl AttributeError)).
  { run_request H. rewrite (raise_for_status_success resp net ok), Hjson.
    destruct body; try discriminate shape; reflexivity. }
  split; [exact F |].
  unfold main_report, bind. rewrite F. reflexivity.
Qed.

Lemma realtime_non_object_body_raises_witness :
  main_report start_location end_location "car" (Float64.of_Z 500)
    (priced_net (PyList []))
  = ([HttpGet REALTIME_DATA_API_URL [("mode", "car")]], inl AttributeError).
Proof.
  refine (proj2 (realtime_non_object_body_raises start_location end_location "car"
                   (Float64.of_Z 500) (priced_net (PyList []))
                   (ok_json (PyList [])) (PyList []) eq_refl _ eq_refl eq_refl)).
  unfold error_status; simpl; lia.
Defined.

Lemma calculate_emissions_float (km : Float64.float) (mode : string)
    (net : network) :
  calculate_emissions (PyFloat km) mode net
  = match Py.lookup mode EMISSION_FACTORS with
    | None => ([Print (not_found_line mode)], inr PyNone)
    | Some factor => ([], inr (PyFloat (Float64.mul km factor)))
    end.
Proof.
  unfold calculate_emissions.
  destruct (Py.lookup mode EMISSION_FACTORS); reflexivity.
Qed.

(** The estimate for a float distance always comes back, whatever the
    mode and the network. *)
Lemma calculate_emissions_float_returns (km : Float64.float) (mode : string)
    (net : network) :
  exists estimate,
    calculate_emissions (PyFloat km) mode net
    = (fst (calculate_emissions (PyFloat km) mode net), inr estimate)
    /\ (estimate = PyNone \/ exists z, estimate = PyFloat z)
    /\ forall net', calculate_emissions (PyFloat km) mode net'
                    = calculate_emissions (PyFloat km) mode net.
Proof.
  rewrite (calculate_emissions_float km mode net).
  destruct (Py.lookup mode EMISSION_FACTORS) as [factor |] eqn:L.
  - exists (PyFloat (Float64.mul km factor)).
    split; [reflexivity |]. split; [right; eexists; reflexivity |].
    intros net'. rewrite (calculate_emissions_float km mode net'), L. reflexivity.
  - exists PyNone. split; [reflexivity |]. split; [left; reflexivity |].
    intros net'. rewrite (calculate_emissions_float km mode net'), L. reflexivity.
Qed.

(** X9.  The report does not depend on the "emissions" field of the
    real-time response (the driver drops it): two real-time answers
    whose objects agree on "cost" give the same run of the report,
    line for line. *)
Theorem report_ignores_realtime_emissions (start_coords end_coords : coords)
    (mode : string) (km : Float64.float) (net1 net2 : network)
    (resp1 resp2 : response) (d1 d2 : list (string * pyval)) :
  net1 REALTIME_DATA_API_URL [("mode", mode)] = Responds resp1 ->
  net2 REALTIME_DATA_API_URL [("mode", mode)] = Responds resp2 ->
  ~ error_status resp1 ->
  ~ error_status resp2 ->
  json resp1 = inr (PyDict d1) ->
  json resp2 = inr (PyDict d2) ->
  Py.lookup "cost" d1 = Py.lookup "cost" d2 ->
  main_report start_coords end_coords mode km net1
  = main_report start_coords end_coords mode km net2.
Proof.
  intros H1 H2 ok1 ok2 J1 J2 same.
  destruct (calculate_emissions_float_returns km mode net1)
    as (estimate & E1 & _ & indep).
  pose proof (indep net2) as E2. rewrite E1 in E2.
  rewrite (main_report_run _ _ _ _ _ _ _ _ _ _
             (fetch_realtime_data_object mode net1 resp1 d1 H1 ok1 J1) E1).
  rewrite (main_report_run _ _ _ _ _ _ _ _ _ _
             (fetch_realtime_data_object mode net2 resp2 d2 H2 ok2 J2) E2).
  rewrite same. reflexivity.
Qed.

Lemma report_ignores_realtime_emissions_witness :
  main_report start_location end_location "car" (Float64.of_Z 500)
    (priced_net (PyDict [("cost", PyInt 40); ("emissions", PyInt 1)]))
  = main_report start_location end_location "car" (Float64.of_Z 500)
      (priced_net (PyDict [("cost", PyInt 40)])).
Proof.
  refine (report_ignores_realtime_emissions start_location end_location "car"
            (Float64.of_Z 500) _ _
            (ok_json (PyDict [("cost", PyInt 40); ("emissions", PyInt 1)]))
            (ok_json (PyDict [("cost", PyInt 40)]))
            _ _ eq_refl eq_refl _ _ eq_refl eq_refl eq_refl);
    unfold error_status; simpl; lia.
Defined.

(** X10.  A cost that is present but falsy ([0], [0.0], [""], [null],
    [false], ...) is treated like a missing one: for every mode the
    report ends normally and none of its lines is a cost line. *)
Theorem falsy_cost_prints_no_cost_line (start_coords end_coords : coords)
    (mode : string) (km : Float64.float) (net : network)
    (t : list event) (cost emissions : pyval) :
  fetch_realtime_data mode net = (t, inr (cost, emissions)) ->
  printed t = [] ->
  Py.truthy cost = false ->
  snd (main_report start_coords end_coords mode km net) = inr tt
  /\ forall line,
       In line (printed (fst (main_report start_coords end_coords mode km net))) ->
       prefix "Estimated cost" line = false.
Proof.
  intros R quiet falsy.
  assert (P : forall a b, printed (a ++ b) = (printed a ++ printed b)%list)
    by (intros a b; apply flat_map_app).
  pose proof (calculate_emissions_float km mode net) as E.
  destruct (Py.lookup mode EMISSION_FACTORS) as [factor |];
    rewrite (main_report_run _ _ _ _ _ _ _ _ _ _ R E);
    unfold cost_lines; rewrite falsy; cbn [Py.is_none Py.format_2f fst snd];
    (split; [reflexivity |]);
    rewrite P, quiet; cbn [printed flat_map app];
    intros line Hin; repeat (destruct Hin as [<- | Hin]); try reflexivity;
    destruct Hin.
Qed.

Lemma falsy_cost_prints_no_cost_line_witness :
  snd (main_report start_location end_location "car" (Float64.of_Z 500)
         (priced_net (PyDict [("cost", PyInt 0)])))
  = inr tt.
Proof.
  exact (proj1 (falsy_cost_prints_no_cost_line start_location end_location "car"
                  (Float64.of_Z 500) (priced_net (PyDict [("cost", PyInt 0)]))
                  [HttpGet REALTIME_DATA_API_URL [("mode", "car")]]
                  (PyInt 0) PyNone eq_refl eq_refl eq_refl)).
Defined.

(** X11.  A cost that is truthy but cannot be formatted with [.2f] (a
    text raises [ValueError], a list or object [TypeError], an int
    beyond the float range [OverflowError]) aborts the report with that
    error after the route and distance lines were printed; the
    emissions line is never reached. *)
Theorem unformattable_cost_aborts_report (start_coords end_coords : coords)
    (mode : string) (km : Float64.float) (net : network)
    (t : list event) (cost emissions : pyval) (e : exn) :
  fetch_realtime_data mode net = (t, inr (cost, emissions)) ->
  Py.truthy cost = true ->
  Py.format_2f cost = inl e ->
  main_report start_coords end_coords mode km net
  = ((t ++ fst (calculate_emissions (PyFloat km) mode net)
        ++ [Print (route_line start_coords end_coords mode);
            Print (distance_line km)])%list,
     inl e).
Proof.
  intros R truthy bad.
  pose proof (calculate_emissions_float km mode net) as E.
  destruct (Py.lookup mode EMISSION_FACTORS) as [factor |];
    rewrite (main_report_run _ _ _ _ _ _ _ _ _ _ R E), E;
    unfold cost_lines; rewrite truthy, bad; cbn [fst app];
    rewrite ?app_nil_r; reflexivity.
Qed.

Lemma unformattable_cost_aborts_report_witness :
  main_report start_location end_location "car" (Float64.of_Z 500)
    (priced_net (PyDict [("cost", PyStr "12.50")]))
  = ([HttpGet REALTIME_DATA_API_URL [("mode", "car")];
      Print (route_line start_location end_location "car");
      Print (distance_line (Float64.of_Z 500))],
     inl ValueError).
Proof.
  exact (unformattable_cost_aborts_report start_location end_location "car"
           (Float64.of_Z 500) (priced_net (PyDict [("cost", PyStr "12.50")]))
           [HttpGet REALTIME_DATA_API_URL [("mode", "car")]]
           (PyStr "12.50") PyNone ValueError eq_refl eq_refl eq_refl).
Defined.

(** ** The requests a run issues *)

Lemma requested_app (a b : list event) :
  requested (a ++ b) = (requested a ++ requested b)%list.
Proof. apply flat_map_app. Qed.

Lemma fetch_realtime_data_one_request (mode : string) (net : network) :
  requested (fst (fetch_realtime_data mode net)) = [realtime_request mode].
Proof.
  unfold fetch_realtime_data, try_except_RequestException, bind, requests.get,
    requests.raise_for_status, requests.json, lift, ret, raise, print.
  destruct (net REALTIME_DATA_API_URL [("mode", mode)]) as [e | resp].
  - destruct e; reflexivity.
  - destruct ((400 <=? status_code resp) && (status_code resp <? 600));
      [reflexivity |].
    destruct (json resp) as [e | data]; [destruct e; reflexivity |].
    destruct (Py.get data "cost") as [e | cost]; [destruct e; reflexivity |].
    destruct (Py.get data "emissions") as [e | emissions];
      [destruct e |]; reflexivity.
Qed.

Lemma main_report_one_request (start_coords end_coords : coords) (mode : string)
    (km : Float64.float) (net : network) :
  requested (fst (main_report start_coords end_coords mode km net))
  = [realtime_request mode].
Proof.
  pose proof (fetch_realtime_data_one_request mode net) as Q.
  destruct (fetch_realtime_data mode net) as [t [e | [cost emissions]]] eqn:R;
    cbn [fst] in Q.
  - unfold main_report, bind. rewrite R. exact Q.
  - pose proof (calculate_emissions_float km mode net) as E.
    destruct (Py.lookup mode EMISSION_FACTORS) as [factor |];
      rewrite (main_report_run _ _ _ _ _ _ _ _ _ _ R E);
      unfold cost_lines;
      destruct (Py.truthy cost); [destruct (Py.format_2f cost) | | destruct (Py.format_2f cost) |];
      cbn [Py.is_none Py.format_2f fst];
      rewrite requested_app, Q; reflexivity.
Qed.

(** X12.  Whatever the network answers, a run of the driver issues the
    routing request first and at most one more request, the real-time
    one for the same mode: never a second routing call, never a retry,
    never the real-time call alone. *)
Theorem main_issues_at_most_two_requests (start_coords end_coords : coords)
    (mode : string) (net : network) :
  requested (fst (main_body start_coords end_coords mode net))
  = [routing_request start_coords end_coords]
  \/ requested (fst (main_body start_coords end_coords mode net))
     = [routing_request start_coords end_coords; realtime_request mode].
Proof.
  pose proof (fetch_route_one_request start_coords end_coords mode net) as Q.
  destruct (fetch_route start_coords end_coords mode net) as [t [e | route]] eqn:F;
    cbn [fst] in Q.
  - rewrite (main_body_fetch_raises _ _ _ _ _ _ F). left; exact Q.
  - rewrite (main_body_after_fetch _ _ _ _ _ _ F).
    destruct (Py.truthy route).
    + destruct (Py.getitem route "distance") as [e | distance]; [left; exact Q |].
      destruct (Py.truediv distance (Float64.of_Z 1000)) as [e | km];
        [left; exact Q |].
      pose proof (main_report_one_request start_coords end_coords mode km net) as Q'.
      destruct (main_report start_coords end_coords mode km net) as [t' r].
      cbn [fst] in Q' |- *. right. rewrite requested_app, Q, Q'. reflexivity.
    + left. cbn [fst]. rewrite requested_app, Q. reflexivity.
Qed.

(** ** Signs: distances and estimates that are never negative *)

Lemma shr_1_nonneg (mrs : shr_record) :
  0 <= shr_m mrs -> 0 <= shr_m (shr_1 mrs).
Proof.
  destruct mrs as [m r s]. destruct m as [| p | p]; cbn [shr_m shr_1].
  - intros _. reflexivity.
  - intros _. destruct p; cbn [shr_m]; lia.
  - lia.
Qed.

Lemma iter_pos_invariant {A : Type} (P : A -> Prop) (f : A -> A) :
  (forall x, P x -> P (f x)) ->
  forall (p : positive) (x : A), P x -> P (iter_pos f p x).
Proof.
  intros step. induction p as [p IH | p IH |]; intros x Px; cbn [iter_pos].
  - apply IH, IH, step, Px.
  - apply IH, IH, Px.
  - apply step, Px.
Qed.

Lemma shr_fexp_nonneg (m e : Z) (l : location) :
  0 <= m -> 0 <= shr_m (fst (shr_fexp Float64.prec Float64.emax m e l)).
Proof.
  intros pos. unfold shr_fexp, shr.
  assert (start : 0 <= shr_m (shr_record_of_loc m l))
    by (destruct l as [| []]; exact pos).
  destruct (fexp Float64.prec Float64.emax (Zdigits2 m + e) - e) as [| p | p];
    cbn [fst]; try exact start.
  exact (iter_pos_invariant (fun mrs => 0 <= shr_m mrs) shr_1 shr_1_nonneg
           p _ start).
Qed.

Lemma round_nearest_even_nonneg (m : Z) (l : location) :
  0 <= m -> 0 <= round_nearest_even m l.
Proof.
  intros pos. destruct l as [| []]; cbn [round_nearest_even]; try lia.
  destruct (Z.even m); lia.
Qed.

(** Rounding a non-negative mantissa keeps the sign it is given and
    never produces a NaN. *)
Lemma binary_round_aux_sign (sx : bool) (mx ex : Z) (lx : location) :
  0 <= mx ->
  match binary_round_aux Float64.prec Float64.emax sx mx ex lx with
  | S754_zero s | S754_infinity s | S754_finite s _ _ => s = sx
  | S754_nan => False
  end.
Proof.
  intros pos. unfold binary_round_aux.
  pose proof (shr_fexp_nonneg mx ex lx pos) as first.
  destruct (shr_fexp Float64.prec Float64.emax mx ex lx) as [mrs' e'].
  cbn [fst] in first.
  pose proof (shr_fexp_nonneg _ e' loc_Exact
                (round_nearest_even_nonneg (shr_m mrs') (loc_of_shr_record mrs')
                   first)) as second.
  destruct (shr_fexp Float64.prec Float64.emax
              (round_nearest_even (shr_m mrs') (loc_of_shr_record mrs')) e'
              loc_Exact) as [mrs'' e''].
  cbn [fst] in second.
  destruct (shr_m mrs'') as [| m | m].
  - reflexivity.
  - destruct (e'' <=? Float64.emax - Float64.prec); reflexivity.
  - lia.
Qed.

Lemma nonnegative_of_sign (z : Float64.float) :
  match z with
  | S754_zero s | S754_infinity s | S754_finite s _ _ => s = false
  | S754_nan => False
  end ->
  nonnegative z.
Proof.
  destruct z as [s | s | | s m e]; intros sign; try contradiction; subst;
    reflexivity.
Qed.

Lemma mul_nonnegative (x : Float64.float) (m : positive) (e : Z) :
  nonnegative x -> nonnegative (Float64.mul x (S754_finite false m e)).
Proof.
  unfold nonnegative. destruct x as [s | s | | s mx ex]; intros pos.
  - destruct s; reflexivity.
  - destruct s; [discriminate pos | reflexivity].
  - discriminate pos.
  - destruct s; [discriminate pos |].
    apply nonnegative_of_sign. unfold Float64.mul, SFmul. cbn [xorb].
    apply binary_round_aux_sign. lia.
Qed.

Lemma div_nonnegative (x : Float64.float) (m : positive) (e : Z) :
  nonnegative x -> nonnegative (Float64.div x (S754_finite false m e)).
Proof.
  unfold nonnegative. destruct x as [s | s | | s mx ex]; intros pos.
  - destruct s; reflexivity.
  - destruct s; [discriminate pos | reflexivity].
  - discriminate pos.
  - destruct s; [discriminate pos |].
    apply nonnegative_of_sign. unfold Float64.div, SFdiv, SFdiv_core_binary.
    cbn [xorb].
    set (shifted := match _ - _ - _ with Z0 => Zpos mx | Zpos _ => _ | Zneg _ => 0 end).
    assert (shifted_pos : 0 <= shifted).
    { subst shifted.
      destruct (_ - _ - _) as [| p | p]; try lia.
      apply Z.shiftl_nonneg. lia. }
    pose proof (Z_div_mod shifted (Zpos m) eq_refl) as spec.
    destruct (Z.div_eucl shifted (Zpos m)) as [q r].
    apply binary_round_aux_sign. nia.
Qed.

Lemma thousand_is_positive :
  exists m e, Float64.of_Z 1000 = S754_finite false m e.
Proof. vm_compute. eexists; eexists; reflexivity. Qed.

Lemma burning_factor_is_positive (mode : string) :
  mode = "car" \/ mode = "bus" ->
  exists m e, Py.lookup mode EMISSION_FACTORS = Some (S754_finite false m e).
Proof.
  intros [-> | ->]; vm_compute; eexists; eexists; reflexivity.
Qed.

(** X13.  For the modes "car" and "bus" and every float distance that
    is [>= 0] (infinity included), [calculate_emissions] prints nothing
    and returns a float that is itself [>= 0]: never a negative
    estimate, never a NaN. *)
Theorem burning_modes_estimate_nonnegative (x : Float64.float) (mode : string)
    (net : network) :
  mode = "car" \/ mode = "bus" ->
  nonnegative x ->
  exists z, calculate_emissions (PyFloat x) mode net = ([], inr (PyFloat z))
            /\ nonnegative z.
Proof.
  intros Hmode pos.
  destruct (burning_factor_is_positive mode Hmode) as (m & e & L).
  rewrite (calculate_emissions_float x mode net), L.
  exists (Float64.mul x (S754_finite false m e)).
  split; [reflexivity | exact (mul_nonnegative x m e pos)].
Qed.

Lemma burning_modes_estimate_nonnegative_witness :
  exists z, calculate_emissions (PyFloat (S754_infinity false)) "bus" offline_net
            = ([], inr (PyFloat z))
            /\ nonnegative z.
Proof.
  exact (burning_modes_estimate_nonnegative (S754_infinity false) "bus"
           offline_net (or_intror eq_refl) eq_refl).
Defined.

(** X14.  When the first route carries a float [distance] that is
    [>= 0], the division by [1000.0] cannot fail and the [distance_km]
    the driver reports and estimates from is itself [>= 0]. *)
Theorem distance_km_nonnegative (start_coords end_coords : coords)
    (mode : string) (net : network) (resp : response) (body : pyval)
    (fields : list (string * pyval)) (meters : Float64.float) :
  net (route_url start_coords end_coords) routing_params = Responds resp ->
  ~ error_status resp ->
  json resp = inr body ->
  has_first_route body (PyDict fields) ->
  Py.lookup "distance" fields = Some (PyFloat meters) ->
  nonnegative meters ->
  exists km,
    nonnegative km
    /\ main_body start_coords end_coords mode net
       = let '(t, r) := main_report start_coords end_coords mode km net in
         (HttpGet (route_url start_coords end_coords) routing_params :: t, r).
Proof.
  intros H ok Hjson Hfirst Hfield pos.
  destruct thousand_is_positive as (m & e & K).
  exists (Float64.div meters (Float64.of_Z 1000)). split.
  - rewrite K. exact (div_nonnegative meters m e pos).
  - rewrite (main_body_after_fetch _ _ _ _ _ _
               (fetch_route_first _ _ mode _ _ _ _ H ok Hjson Hfirst)).
    destruct fields as [| item fields]; [discriminate Hfield |].
    cbn [Py.truthy Py.getitem]. rewrite Hfield.
    unfold Py.truediv, Py.as_float. rewrite K at 1. reflexivity.
Qed.

Lemma distance_km_nonnegative_witness :
  exists km,
    nonnegative km
    /\ main float_distance_net
       = let '(t, r) := main_report start_location end_location "car" km
                          float_distance_net in
         (HttpGet (route_url start_location end_location) routing_params :: t, r).
Proof.
  refine (distance_km_nonnegative start_location end_location "car"
            float_distance_net
            (ok_json (routes_body
                        [route_of_distance (PyFloat (Float64.literal 12345 10))]))
            _ [("distance", PyFloat (Float64.literal 12345 10))]
            (Float64.literal 12345 10)
            (serve_routing _ _ _ _ _) _ eq_refl _ eq_refl _).
  - unfold error_status; simpl; lia.
  - exists [("routes",
             PyList [route_of_distance (PyFloat (Float64.literal 12345 10))])], [].
    split; reflexivity.
  - vm_compute; reflexivity.
Defined.

(** ** What the fetchers print *)

(** X15.  [fetch_route] prints at most one line, and only together
    with the result [None]: whatever the network answers, either
    nothing is printed, or exactly the line "Error fetching route: ..."
    is and the call returns [None].  An exception that leaves the
    function is never accompanied by output.  The same holds for
    [fetch_realtime_data] with its line and the pair [(None, None)]. *)
Theorem fetchers_print_only_with_absent_result (start_coords end_coords : coords)
    (mode : string) (net : network) :
  (printed (fst (fetch_route start_coords end_coords mode net)) = []
   \/ exists msg,
        printed (fst (fetch_route start_coords end_coords mode net))
        = ["Error fetching route: " ++ msg]
        /\ snd (fetch_route start_coords end_coords mode net) = inr PyNone)
  /\ (printed (fst (fetch_realtime_data mode net)) = []
      \/ exists msg,
           printed (fst (fetch_realtime_data mode net))
           = ["Error fetching real-time data: " ++ msg]
           /\ snd (fetch_realtime_data mode net) = inr (PyNone, PyNone)).
Proof.
  split.
  - unfold fetch_route, try_except_RequestException, bind, requests.get,
      requests.raise_for_status, requests.json, lift, ret, raise, print.
    destruct (net (route_url start_coords end_coords)
                [("geometries", "geojson"); ("overview", "simplified")])
      as [e | resp];
      [destruct e; first [left; reflexivity | right; eexists; split; reflexivity] |].
    destruct ((400 <=? status_code resp) && (status_code resp <? 600));
      [right; eexists; split; reflexivity |].
    destruct (json resp) as [e | data];
      [destruct e; first [left; reflexivity | right; eexists; split; reflexivity] |].
    destruct (Py.contains "routes" data) as [e | has];
      [destruct e; first [left; reflexivity | right; eexists; split; reflexivity] |].
    destruct has; [| left; reflexivity].
    destruct (Py.getitem data "routes") as [e | routes];
      [destruct e; first [left; reflexivity | right; eexists; split; reflexivity] |].
    cbn [fst snd app].
    destruct (Py.truthy routes); [| left; reflexivity].
    destruct (Py.getitem0 routes) as [e | first_route]; [destruct e |];
      first [left; reflexivity | right; eexists; split; reflexivity].
  - unfold fetch_realtime_data, try_except_RequestException, bind, requests.get,
      requests.raise_for_status, requests.json, lift, ret, raise, print.
    destruct (net REALTIME_DATA_API_URL [("mode", mode)]) as [e | resp];
      [destruct e; first [left; reflexivity | right; eexists; split; reflexivity] |].
    destruct ((400 <=? status_code resp) && (status_code resp <? 600));
      [right; eexists; split; reflexivity |].
    destruct (json resp) as [e | data];
      [destruct e; first [left; reflexivity | right; eexists; split; reflexivity] |].
    destruct (Py.get data "cost") as [e | cost];
      [destruct e; first [left; reflexivity | right; eexists; split; reflexivity] |].
    destruct (Py.get data "emissions") as [e | emissions]; [destruct e |];
      first [left; reflexivity | right; eexists; split; reflexivity].
Qed.

(** ** The complete report *)

(** X16.  With a cost that is truthy and a number, and a mode of the
    factor table, the report is complete and in this order: the route
    line, the distance line, the cost line with the cost to two
    decimals, the emissions line with the product of [distance_km] and
    the mode's factor to two decimals; then it returns normally. *)
Theorem complete_report (start_coords end_coords : coords) (mode : string)
    (km factor : Float64.float) (net : network) (t : list event)
    (cost emissions : pyval) (text : string) :
  fetch_realtime_data mode net = (t, inr (cost, emissions)) ->
  Py.truthy cost = true ->
  Py.format_2f cost = inr text ->
  Py.lookup mode EMISSION_FACTORS = Some factor ->
  main_report start_coords end_coords mode km net
  = ((t ++ [Print (route_line start_coords end_coords mode);
            Print (distance_line km);
            Print ("Estimated cost: $" ++ text);
            Print ("Estimated emissions: "
                     ++ Float64.format_2f (Float64.mul km factor) ++ " kg CO2")])%list,
     inr tt).
Proof.
  intros R truthy fine known.
  pose proof (calculate_emissions_float km mode net) as E. rewrite known in E.
  rewrite (main_report_run _ _ _ _ _ _ _ _ _ _ R E).
  unfold cost_lines. rewrite truthy, fine. reflexivity.
Qed.

Lemma complete_report_witness :
  main_report start_location end_location "bus" (Float64.of_Z 500)
    (priced_net (PyDict [("cost", PyFloat (Float64.literal 425 10))]))
  = ([HttpGet REALTIME_DATA_API_URL [("mode", "bus")];
      Print (route_line start_location end_location "bus");
      Print "Distance: 500.00 km";
      Print "Estimated cost: $42.50";
      Print "Estimated emissions: 52.50 kg CO2"],
     inr tt).
Proof.
  exact (complete_report start_location end_location "bus" (Float64.of_Z 500)
           (Float64.literal 105 1000)
           (priced_net (PyDict [("cost", PyFloat (Float64.literal 425 10))]))
           [HttpGet REALTIME_DATA_API_URL [("mode", "bus")]]
           (PyFloat (Float64.literal 425 10)) PyNone "42.50"
           eq_refl eq_refl eq_refl eq_refl).
Defined.
